(** * A shallow embedding of the [units] package (dimensional analysis)

    The development follows [units/datatypes.py], [units/unit.py] and
    [units/constructor.py].

    Numbers.  The source computes on Python numbers ([Num = Union[float,int]]).
    They are embedded as exact rationals ([Qc], canonical fractions, so that
    Python's numeric [==] is Leibniz equality).  Rounding of floats is outside
    the model; division keeps its one failure, [ZeroDivisionError].

    Failure.  Every check in the source is an [assert]; a failed one raises
    [AssertionError] with a message.  The messages are kept apart by the
    constructors of [assertion], one per [assert] of the source.

    Left out.  [Unit.__str__] (apart from the two suffixes it renders), the
    units [Pa], [bar] and [eV] and the two constants, and [units/units.py],
    an earlier single-file copy of the same classes without labels.
    [Unit.__pow__] is embedded for integral exponents. *)

From Stdlib Require Import QArith Qcanon ZArith String Ascii DecimalString.
From Stdlib Require Import Qpower.
From Stdlib Require OrderedTypeEx.
From stdpp Require Import base decidable countable gmap strings list sorting.

Local Open Scope Qc_scope.

(* ================================================================== *)
(** ** Exceptions and the error monad *)

Inductive assertion : Set :=
| Cannot_multiply_offset   (* Unit.__mul__      : 'Cannot multiply a derived unit with an offset ...' *)
| Cannot_divide_offset     (* Unit.__truediv__  : 'Cannot divide a derived unit with an offset ...' *)
| Numerator_not_1          (* Unit.__rfloordiv__: ' // operator requires numerator to be 1' *)
| Cannot_invert_offset     (* Unit.__rfloordiv__: 'Cannot invert derived unit with offset (e.g. 1/C)' *)
| Unit_toUnit_scaled       (* Unit.toUnit       : assert self.factor == 1 and self.offset == 0 *)
| Cannot_add_different     (* UnitVal.__add__   : 'Cannot add numbers of different units' *)
| Cannot_subtract_different(* UnitVal.__sub__   : 'Cannot subtract numbers of different units' *)
| Cannot_cast_unitless     (* UnitVal.__float__, __int__: 'Cannot cast into unitless number: %s' *)
| Cannot_cast_integer      (* UnitVal.__int__   : 'Cannot cast to integer! %s' *)
| Cannot_convert           (* UnitVal.to        : 'Cannot convert %s to %s' *)
| Invalid_unit.            (* SafeConstructor   : 'invalid unit: %s' *)

Inductive exn : Set :=
| AssertionError (a : assertion)
| ZeroDivisionError.

Inductive result (A : Type) : Type :=
| Ok (a : A)
| Raise (e : exn).

Arguments Ok {A} a.
Arguments Raise {A} e.

Global Instance result_ret : MRet result := fun A a => Ok a.

Global Instance result_bind : MBind result := fun A B f m =>
  match m with
  | Ok a => f a
  | Raise e => Raise e
  end.

(** [assert cond, msg] *)
Definition assert (cond : bool) (msg : assertion) : result () :=
  if cond then Ok () else Raise (AssertionError msg).

(** Python's true division [a / b]. *)
Definition truediv (a b : Qc) : result Qc :=
  if bool_decide (b = 0) then Raise ZeroDivisionError else Ok (a / b).

(** Python's [int(x)] on a number: truncation towards zero. *)
Definition int (x : Qc) : Z := Z.quot (Qnum x) (Zpos (Qden x)).

(** ['%s' % x] on a number.  An integral value prints as Python's [int]
    does; a value that is not integral prints as numerator/denominator, the
    way Python's exact rationals ([fractions.Fraction]) do.  How a [float]
    is rendered is outside the model. *)
Definition str_int (z : Z) : string := NilZero.string_of_int (Z.to_int z).

Definition str (x : Qc) : string :=
  match Qden x with
  | xH => str_int (Qnum x)
  | d => str_int (Qnum x) +:+ "/" +:+ str_int (Zpos d)
  end.

(** [sep.join(l)] *)
Fixpoint join (sep : string) (l : list string) : string :=
  match l with
  | [] => ""
  | [x] => x
  | x :: l' => x +:+ sep +:+ join sep l'
  end.

(** The multiplication glyph of the labels: U+00B7, as its UTF-8 bytes. *)
Definition middot : string :=
  String (ascii_of_nat 194) (String (ascii_of_nat 183) EmptyString).

(* ================================================================== *)
(** ** Python dictionaries whose item order is observed

    A [dict] keeps its items in insertion order; assigning to a key that is
    already present replaces the value and leaves the key where it is. *)

Fixpoint setitem {K V : Type} `{EqDecision K}
    (d : list (K * V)) (k : K) (v : V) : list (K * V) :=
  match d with
  | [] => [(k, v)]
  | (k', v') :: d' =>
      if decide (k' = k) then (k', v) :: d' else (k', v') :: setitem d' k v
  end.

(* ================================================================== *)
(** ** [class SIBase(Unit, Enum)]: the base dimensions *)

Inductive SIBase : Set :=
| KILOGRAM | SECOND | KELVIN | AMPERE | MOLE | METER.

(** Iterating over the enumeration ([for b in SIBase]) yields the members in
    definition order. *)
Definition members : list SIBase :=
  [KILOGRAM; SECOND; KELVIN; AMPERE; MOLE; METER].

Definition value (b : SIBase) : string :=
  match b with
  | KILOGRAM => "kg"
  | SECOND => "s"
  | KELVIN => "K"
  | AMPERE => "A"
  | MOLE => "mol"
  | METER => "m"
  end.

Global Instance SIBase_eq_dec : EqDecision SIBase.
Proof. solve_decision. Defined.

Definition SIBase_index (b : SIBase) : nat :=
  match b with
  | KILOGRAM => 0 | SECOND => 1 | KELVIN => 2
  | AMPERE => 3 | MOLE => 4 | METER => 5
  end.

Global Instance SIBase_countable : Countable SIBase.
Proof.
  apply (inj_countable SIBase_index (fun n => members !! n)).
  by intros [].
Defined.

(** A dict comprehension [{b: f(b) for b in SIBase}]. *)
Definition comprehension (f : SIBase -> Qc) : gmap SIBase Qc :=
  foldl (fun d b => <[b := f b]> d) ∅ members.

(* ================================================================== *)
(** ** [class Unit]

    A unit is either an instance built by [Unit(label, bases, factor,
    offset)] or a member of [SIBase], which inherits the methods of [Unit]
    and overrides the four properties. *)

Module Unit.

Inductive t : Type :=
| Unit (_label : string) (_bases : gmap SIBase Qc) (_factor _offset : Qc)
| Member (b : SIBase).

(** [Unit()]: every argument at its default. *)
Definition Unit0 : t := Unit "" ∅ 1 0.

Definition factor (self : t) : Qc :=
  match self with
  | Unit _ _ f _ => f
  | Member _ => 1
  end.

Definition label (self : t) : string :=
  match self with
  | Unit l _ _ _ => l
  | Member b => value b
  end.

Definition offset (self : t) : Qc :=
  match self with
  | Unit _ _ _ o => o
  | Member _ => 0
  end.

(** The [bases] property returns a dict with one key per member of [SIBase],
    in definition order: [{b: self._bases.get(b,0) for b in SIBase}], and for
    a member [{b: (1 if b == self else 0) for b in SIBase}].  A dict over
    that fixed key set is a function on [SIBase]; [items], [values] and [==]
    are those of the dict. *)
Definition bases (self : t) : SIBase -> Qc :=
  match self with
  | Unit _ d _ _ => fun b => default 0 (d !! b)
  | Member s => fun b => if decide (b = s) then 1 else 0
  end.

Definition items (d : SIBase -> Qc) : list (SIBase * Qc) :=
  (fun b => (b, d b)) <$> members.

Definition values (d : SIBase -> Qc) : list Qc := d <$> members.

(** [d1 == d2] for two such dicts. *)
Definition bases_eq (d1 d2 : SIBase -> Qc) : bool :=
  forallb (fun b => bool_decide (d1 b = d2 b)) members.

(** [Unit.__eq__]: labels do not matter. *)
Definition __eq__ (self other : t) : bool :=
  bool_decide (factor self = factor other)
  && bool_decide (offset self = offset other)
  && bases_eq (bases self) (bases other).

(** [SIBase.__eq__ = Enum.__eq__], which is [object.__eq__]: [True] on the
    very same member, [NotImplemented] ([None]) on anything else. *)
Definition Enum__eq__ (self : SIBase) (other : t) : option bool :=
  match other with
  | Member b => if decide (self = b) then Some true else None
  | Unit _ _ _ _ => None
  end.

(** The expression [a == b].  Python asks the left operand first, unless the
    class of the right operand is a proper subclass of the class of the left
    one, and on [NotImplemented] asks the other operand (with the operands
    swapped); when both decline, [==] is identity.  [Unit.__eq__] never
    declines. *)
Definition eq (a b : t) : bool :=
  match a, b with
  | Unit _ _ _ _, Unit _ _ _ _ => __eq__ a b
  | Member x, Member y =>
      match Enum__eq__ x b with
      | Some r => r
      | None =>
          match Enum__eq__ y a with
          | Some r => r
          | None => bool_decide (x = y)
          end
      end
  | Member x, Unit _ _ _ _ =>
      match Enum__eq__ x b with
      | Some r => r
      | None => __eq__ b a
      end
  | Unit _ _ _ _, Member y =>
      match Enum__eq__ y a with
      | Some r => r
      | None => __eq__ a b
      end
  end.

Definition __mul__ (self u : t) : result t :=
  assert (bool_decide (offset self = 0)) Cannot_multiply_offset;;
  let n := label self +:+ middot +:+ label u in
  let basesum := comprehension (fun b => bases self b + bases u b) in
  Ok (Unit n basesum (factor self * factor u) 0).

Definition __truediv__ (self u : t) : result t :=
  assert (bool_decide (offset self = 0)) Cannot_divide_offset;;
  let n := label self +:+ middot +:+ label u in
  let basediff := comprehension (fun b => bases self b - bases u b) in
  Ok (Unit n basediff (factor self * factor u) 0).

(** [v // self] *)
Definition __rfloordiv__ (self : t) (v : Qc) : result t :=
  assert (bool_decide (v = 1)) Numerator_not_1;;
  assert (bool_decide (offset self = 0)) Cannot_invert_offset;;
  f ← truediv 1 (factor self);
  Ok (Unit ("1/" +:+ label self) (comprehension (fun b => - bases self b)) f 0).

Definition toUnit (self : t) (label : string) : result t :=
  assert (bool_decide (factor self = 1) && bool_decide (offset self = 0))
         Unit_toUnit_scaled;;
  Ok (Unit label (comprehension (bases self)) 1 0).

(** [{pow: k.value for k,pow in self.bases.items() if pow != 0}]: a dict
    keyed by the exponent. *)
Definition basedict (self : t) : list (Qc * string) :=
  foldl (fun d '(k, pow) =>
           if bool_decide (pow = 0) then d else setitem d pow (value k))
        [] (items (bases self)).

(** The order of [sorted] on [(pow, symbol)] tuples: by exponent, then by
    symbol. *)
Definition tuple_le (x y : Qc * string) : Prop :=
  x.1 < y.1 \/ (x.1 = y.1 /\ String.leb x.2 y.2 = true).

Global Instance tuple_le_dec : RelDecision tuple_le.
Proof. intros x y. unfold tuple_le. apply _. Defined.

Definition sorted (l : list (Qc * string)) : list (Qc * string) :=
  merge_sort tuple_le l.

(** [b+('^%s'%(pow) if pow!=1 else '')] *)
Definition symbol (x : Qc * string) : string :=
  let '(pow, b) := x in
  b +:+ (if bool_decide (pow = 1) then "" else "^" +:+ str pow).

Definition stdLabel (self : t) : t :=
  let strbases := reverse (sorted (basedict self)) in
  let n := join middot (symbol <$> strbases) in
  Unit n (comprehension (bases self)) (factor self) (offset self).

End Unit.

(** A member of [SIBase] is a [Unit]. *)
Coercion Unit.Member : SIBase >-> Unit.t.

(* ================================================================== *)
(** ** [class UnitVal]: a value accompanied by a unit *)

Module UnitVal.

Record t : Type := UnitVal { val : Qc; unit : Unit.t }.

(** [UnitVal(val, unit)]: [unit_ = unit or Unit()].  [Unit] defines neither
    [__bool__] nor [__len__], so a unit is always true and only [None]
    selects the default. *)
Definition __init__ (val : Qc) (unit : option Unit.t) : t :=
  let unit_ := match unit with Some u => u | None => Unit.Unit0 end in
  UnitVal val unit_.

(** Return value in SI units. *)
Definition __call__ (self : t) : result Qc :=
  truediv (val self - Unit.offset (unit self)) (Unit.factor (unit self)).

Definition __add__ (self u : t) : result t :=
  assert (Unit.eq (unit self) (unit u)) Cannot_add_different;;
  un ← Unit.__mul__ (unit self) (unit u);
  Ok (__init__ (val self + val u) (Some un)).

Definition __sub__ (self u : t) : result t :=
  assert (Unit.eq (unit self) (unit u)) Cannot_subtract_different;;
  un ← Unit.__mul__ (unit self) (unit u);
  Ok (__init__ (val self - val u) (Some un)).

(** The right operand of [*] and [/] is a [UnitVal] or a bare [Unit]:
    [val,unit = (u.val,u.unit) if isinstance(u,UnitVal) else (1,u)]. *)
Definition operand (u : t + Unit.t) : Qc * Unit.t :=
  match u with
  | inl q => (val q, unit q)
  | inr un => (1, un)
  end.

Definition __mul__ (self : t) (u : t + Unit.t) : result t :=
  let '(v, un) := operand u in
  r ← Unit.__mul__ (unit self) un;
  Ok (__init__ (val self * v) (Some r)).

Definition __truediv__ (self : t) (u : t + Unit.t) : result t :=
  let '(v, un) := operand u in
  x ← truediv (val self) v;
  r ← Unit.__truediv__ (unit self) un;
  Ok (__init__ x (Some r)).

(** [all([x == 0 for x in self.unit.bases.values()])] *)
Definition unitless (self : t) : bool :=
  forallb (fun x => bool_decide (x = 0)) (Unit.values (Unit.bases (unit self))).

Definition __float__ (self : t) : result Qc :=
  assert (unitless self) Cannot_cast_unitless;;
  Ok (val self).

Definition __int__ (self : t) : result Z :=
  assert (unitless self) Cannot_cast_unitless;;
  assert (bool_decide (Qc_of_Z (int (val self)) = val self)) Cannot_cast_integer;;
  Ok (int (val self)).

Definition toUnit (self : t) (label : string) : Unit.t :=
  Unit.Unit label (comprehension (Unit.bases (unit self)))
            (Unit.factor (unit self) * val self) 0.

Definition to (self : t) (u_ : option Unit.t) : result t :=
  let u := match u_ with
           | Some u => u
           | None => Unit.Unit "" (comprehension (Unit.bases (unit self))) 1 0
           end in
  assert (Unit.bases_eq (Unit.bases u) (Unit.bases (unit self))) Cannot_convert;;
  self_si ← truediv (val self - Unit.offset (unit self)) (Unit.factor (unit self));
  Ok (__init__ (self_si * Unit.factor u + Unit.offset u) (Some u)).

Definition stdLabel (self : t) : t :=
  __init__ (val self) (Some (Unit.stdLabel (unit self))).

End UnitVal.

(** [Unit.__rmul__]: [val * unit] attaches the unit to a number. *)
Definition Unit__rmul__ (self : Unit.t) (val : Qc) : UnitVal.t :=
  UnitVal.__init__ val (Some self).

(* ================================================================== *)
(** ** [units/unit.py]: the units the claims name *)

Module unit_py.

Definition kg : SIBase := KILOGRAM.
Definition s : SIBase := SECOND.
Definition K : SIBase := KELVIN.
Definition A : SIBase := AMPERE.
Definition mol : SIBase := MOLE.
Definition m : SIBase := METER.

(** [C = Unit('C',{K:1}, offset = -273.15)] *)
Definition C : Unit.t :=
  Unit.Unit "C" {[ K := 1 ]} 1 (Q2Qc (-27315 # 100)).

(** [F = Unit('F',{K:1}, factor = 9/5, offset = -459.67)] *)
Definition F : Unit.t :=
  Unit.Unit "F" {[ K := 1 ]} (Q2Qc (9 # 5)) (Q2Qc (-45967 # 100)).

(** [Hz = 1 // s] *)
Definition Hz : result Unit.t := Unit.__rfloordiv__ s 1.

End unit_py.

(* ================================================================== *)
(** ** [units/constructor.py]: safe constructors *)

Module SafeConstructor.

Definition __init__ (default : Unit.t) (val_ : UnitVal.t) : result UnitVal.t :=
  let val := UnitVal.val val_ in
  let unit := UnitVal.unit val_ in
  assert (Unit.bases_eq (Unit.bases unit) (Unit.bases default)) Invalid_unit;;
  Ok (UnitVal.__init__ val (Some unit)).

End SafeConstructor.

Definition Temp (val_ : UnitVal.t) : result UnitVal.t :=
  SafeConstructor.__init__ unit_py.K val_.

Definition Length (val_ : UnitVal.t) : result UnitVal.t :=
  SafeConstructor.__init__ unit_py.m val_.

(* ================================================================== *)
(** ** The display label in the words of the specification

    [Unit.__str__] is where the source renders the factor and the offset:
    [strfactor = ' x %s'%self.factor if self.factor!=1 else ''],
    [plus = '+' if self.offset > 0 else ''] and
    [stroffset = ' %s %s'%(plus,self.offset) if self.offset!=0 else '']. *)

Definition strfactor (self : Unit.t) : string :=
  if bool_decide (Unit.factor self = 1) then ""
  else " x " +:+ str (Unit.factor self).

Definition stroffset (self : Unit.t) : string :=
  let plus := if bool_decide (0 < Unit.offset self) then "+" else "" in
  if bool_decide (Unit.offset self = 0) then ""
  else " " +:+ plus +:+ " " +:+ str (Unit.offset self).

(** One [(exponent, symbol)] pair per base dimension whose exponent is not
    0, by descending exponent, ties by descending symbol. *)
Definition spec_symbols (u : Unit.t) : list (Qc * string) :=
  reverse (Unit.sorted
    ((fun d => (Unit.bases u d, value d))
       <$> filter (fun d => Unit.bases u d <> 0) members)).

(** The canonical label as the specification describes it: the symbols, each
    with [^exponent] unless the exponent is 1, joined by the multiplication
    glyph, then the factor suffix and the offset suffix. *)
Definition spec_canonicalLabel (u : Unit.t) : string :=
  join middot (Unit.symbol <$> spec_symbols u) +:+ strfactor u +:+ stroffset u.

(** Three units to try the label on. *)
Definition joule : Unit.t :=
  Unit.Unit "J" {[ KILOGRAM := 1; METER := 2; SECOND := -2 ]} 1 0.

Definition double_metre : Unit.t := Unit.Unit "dm" {[ METER := 1 ]} 2 0.

Definition kilogram_metre : Unit.t :=
  Unit.Unit "kg.m" {[ KILOGRAM := 1; METER := 1 ]} 1 0.

(* ================================================================== *)
(** ** Exponentiation

    [Unit.__pow__] has an assertion of its own, 'Cannot exponeniate a derived
    unit with an offset (Celsius^2 is ridiculous)'.  The code that can raise
    it runs in [outcome], whose exceptions are that assertion and the
    exceptions of [result]. *)

Inductive exception : Set :=
| Cannot_exponentiate_offset
| Earlier (e : exn).

Inductive outcome (A : Type) : Type :=
| Returns (a : A)
| Raises (e : exception).

Arguments Returns {A} a.
Arguments Raises {A} e.

Global Instance outcome_ret : MRet outcome := fun A a => Returns a.

Global Instance outcome_bind : MBind outcome := fun A B f m =>
  match m with
  | Returns a => f a
  | Raises e => Raises e
  end.

Definition lift {A : Type} (r : result A) : outcome A :=
  match r with
  | Ok a => Returns a
  | Raise e => Raises (Earlier e)
  end.

(** Python's [x ** n] for an integral exponent [n]: only [0 ** n] with a
    negative [n] raises.  A power with an exponent that is not integral is
    in general no rational and is not embedded. *)
Definition power (x : Qc) (n : Z) : result Qc :=
  if bool_decide (x = 0) && bool_decide (n < 0)%Z then Raise ZeroDivisionError
  else Ok (Q2Qc (Qpower x n)).

(** [Unit.__pow__] *)
Definition Unit__pow__ (self : Unit.t) (pow : Z) : outcome Unit.t :=
  (if bool_decide (Unit.offset self = 0) then Returns ()
   else Raises Cannot_exponentiate_offset);;
  let n := Unit.label self +:+ "^" +:+ str_int pow in
  f ← lift (power (Unit.factor self) pow);
  Returns (Unit.Unit n (comprehension (fun b => Unit.bases self b * Qc_of_Z pow)) f 0).

(** [SIBase.unit]: [Unit(label=self.label,bases=self.bases)] *)
Definition SIBase_unit (self : SIBase) : Unit.t :=
  Unit.Unit (Unit.label self) (comprehension (Unit.bases self)) 1 0.

(** [SIBase.__pow__]: [self.unit() ** pow] *)
Definition SIBase__pow__ (self : SIBase) (pow : Z) : outcome Unit.t :=
  Unit__pow__ (SIBase_unit self) pow.

(** The expression [u ** n]: a member of [SIBase] overrides [__pow__]. *)
Definition pow (u : Unit.t) (n : Z) : outcome Unit.t :=
  match u with
  | Unit.Member b => SIBase__pow__ b n
  | Unit.Unit _ _ _ _ => Unit__pow__ u n
  end.

(** [Unit.__rtruediv__]: [v / unit] is [UnitVal(v) / self]. *)
Definition Unit__rtruediv__ (self : Unit.t) (v : Qc) : result UnitVal.t :=
  UnitVal.__truediv__ (UnitVal.__init__ v None) (inr self).

(* ================================================================== *)
(** ** The newton and the joule of [units/unit.py], [Energy], and the
    functions of [example.py] *)

Module unit_py_derived.

(** [N = kg * (m/s**2)] *)
Definition N : outcome Unit.t :=
  s2 ← pow unit_py.s 2;
  ms2 ← lift (Unit.__truediv__ unit_py.m s2);
  lift (Unit.__mul__ unit_py.kg ms2).

(** [J = N * m] *)
Definition J : outcome Unit.t :=
  n ← N; lift (Unit.__mul__ n unit_py.m).

End unit_py_derived.

(** [class Energy(SafeConstructor)]: [super().__init__(J, val_)] *)
Definition Energy (val_ : UnitVal.t) : outcome UnitVal.t :=
  j ← unit_py_derived.J; lift (SafeConstructor.__init__ j val_).

Module example_py.

(** [boltzmann = 1.38e-23 * J / K] *)
Definition boltzmann : outcome UnitVal.t :=
  j ← unit_py_derived.J;
  lift (UnitVal.__truediv__ (Unit__rmul__ j (Q2Qc (138 # 10 ^ 25)))
                            (inr (unit_py.K : Unit.t))).

(** [doThermo1] and [doThermo2]: [return t * boltzmann] *)
Definition doThermo1 (t : UnitVal.t) : outcome UnitVal.t :=
  k ← boltzmann; lift (UnitVal.__mul__ t (inl k)).

(** [doThermo3]: [return Energy(t * boltzmann)] *)
Definition doThermo3 (t : UnitVal.t) : outcome UnitVal.t :=
  k ← boltzmann; e ← lift (UnitVal.__mul__ t (inl k)); Energy e.

End example_py.

(* ================================================================== *)
(** * Properties *)

(** ** Closed rational facts are settled by evaluation *)

Ltac qc_eq := apply Qc_is_canon; vm_compute; reflexivity.
Ltac qc_neq :=
  let H := fresh in
  intros H; apply (f_equal this) in H; vm_compute in H; discriminate H.

(** ** The error monad *)

Lemma assert_true (c : bool) (a : assertion) : c = true -> assert c a = Ok ().
Proof. by intros ->. Qed.

Lemma assert_false (c : bool) (a : assertion) :
  c = false -> assert c a = Raise (AssertionError a).
Proof. by intros ->. Qed.

Lemma truediv_ok (a b : Qc) : b <> 0 -> truediv a b = Ok (a / b).
Proof. intros Hb. unfold truediv. by rewrite bool_decide_eq_false_2. Qed.

Lemma truediv_zero (a : Qc) : truediv a 0 = Raise ZeroDivisionError.
Proof. unfold truediv. by rewrite bool_decide_eq_true_2. Qed.

(** ** Dictionaries over [SIBase] *)

Lemma lookup_comprehension (f : SIBase -> Qc) (b : SIBase) :
  comprehension f !! b = Some (f b).
Proof.
  unfold comprehension, members. cbn [foldl].
  destruct b; by simplify_map_eq.
Qed.

Lemma bases_Unit l (f : SIBase -> Qc) x o b :
  Unit.bases (Unit.Unit l (comprehension f) x o) b = f b.
Proof.
  change (default 0 (comprehension f !! b) = f b).
  by rewrite lookup_comprehension.
Qed.

Lemma bases_eq_true (d1 d2 : SIBase -> Qc) :
  Unit.bases_eq d1 d2 = true <-> forall b, d1 b = d2 b.
Proof.
  unfold Unit.bases_eq. rewrite forallb_forall. split.
  - intros H b. eapply bool_decide_eq_true_1, H. destruct b; cbn; tauto.
  - intros H b _. by apply bool_decide_eq_true_2.
Qed.

Lemma bases_eq_false (d1 d2 : SIBase -> Qc) :
  Unit.bases_eq d1 d2 = false <-> exists b, d1 b <> d2 b.
Proof.
  split.
  - intros H. apply not_true_iff_false in H. rewrite bases_eq_true in H.
    destruct (decide (Forall (fun b => d1 b = d2 b) members)) as [Hall|Hex].
    + exfalso. apply H. intros b. rewrite Forall_forall in Hall.
      apply Hall. destruct b; set_solver.
    + apply not_Forall_Exists in Hex; [|apply _].
      apply Exists_exists in Hex as (b & _ & Hb). by exists b.
  - intros [b Hb]. apply not_true_iff_false. rewrite bases_eq_true. naive_solver.
Qed.

Lemma bases_eq_refl d : Unit.bases_eq d d = true.
Proof. by apply bases_eq_true. Qed.

Lemma bases_eq_sym d1 d2 : Unit.bases_eq d1 d2 = Unit.bases_eq d2 d1.
Proof.
  destruct (Unit.bases_eq d2 d1) eqn:H.
  - apply bases_eq_true. intros b. symmetry. revert b. by apply bases_eq_true.
  - apply bases_eq_false. apply bases_eq_false in H as [b Hb]. exists b. congruence.
Qed.

(** ** Equality of units is structural *)

Lemma Unit__eq__sym a b : Unit.__eq__ a b = Unit.__eq__ b a.
Proof.
  unfold Unit.__eq__. rewrite (bases_eq_sym (Unit.bases a)).
  do 2 f_equal; apply bool_decide_ext; split; congruence.
Qed.

Lemma Unit_eq_structural a b : Unit.eq a b = Unit.__eq__ a b.
Proof.
  destruct a as [l d f o|x], b as [l' d' f' o'|y]; cbn [Unit.eq Unit.Enum__eq__];
    try reflexivity; try apply Unit__eq__sym.
  destruct x, y; vm_compute; reflexivity.
Qed.

Lemma Unit_eq_true a b :
  Unit.eq a b = true <->
  Unit.factor a = Unit.factor b /\ Unit.offset a = Unit.offset b /\
  forall d, Unit.bases a d = Unit.bases b d.
Proof.
  rewrite Unit_eq_structural. unfold Unit.__eq__.
  rewrite !andb_true_iff, !bool_decide_eq_true, bases_eq_true. tauto.
Qed.

(** ** What [Unit.__mul__] and [Unit.__truediv__] compute *)

Lemma Unit_mul_ok a b :
  Unit.offset a = 0 ->
  Unit.__mul__ a b =
    Ok (Unit.Unit (Unit.label a +:+ middot +:+ Unit.label b)
          (comprehension (fun d => Unit.bases a d + Unit.bases b d))
          (Unit.factor a * Unit.factor b) 0).
Proof.
  intros H. unfold Unit.__mul__. rewrite assert_true; [done|].
  by apply bool_decide_eq_true.
Qed.

Lemma Unit_mul_affine a b :
  Unit.offset a <> 0 ->
  Unit.__mul__ a b = Raise (AssertionError Cannot_multiply_offset).
Proof.
  intros H. unfold Unit.__mul__. rewrite assert_false; [done|].
  by apply bool_decide_eq_false.
Qed.

Lemma Unit_truediv_ok a b :
  Unit.offset a = 0 ->
  Unit.__truediv__ a b =
    Ok (Unit.Unit (Unit.label a +:+ middot +:+ Unit.label b)
          (comprehension (fun d => Unit.bases a d - Unit.bases b d))
          (Unit.factor a * Unit.factor b) 0).
Proof.
  intros H. unfold Unit.__truediv__. rewrite assert_true; [done|].
  by apply bool_decide_eq_true.
Qed.

(** C1.  Dividing the metre (offset 0, factor 1) by a unit of factor 2
    returns a unit whose exponents are the differences, but whose factor is
    the PRODUCT of the two factors, 2, and not the quotient 1/2:
    [Unit.__truediv__] passes [self.factor*u.factor] to the constructor. *)
Theorem C1_truediv_multiplies_the_factors :
  exists r,
    Unit.__truediv__ unit_py.m (Unit.Unit "b" {[ METER := 1 ]} 2 0) = Ok r /\
    (forall d, Unit.bases r d =
               Unit.bases unit_py.m d
               - Unit.bases (Unit.Unit "b" {[ METER := 1 ]} 2 0) d) /\
    Unit.factor r = 2 /\
    Unit.factor r <>
      Unit.factor unit_py.m / Unit.factor (Unit.Unit "b" {[ METER := 1 ]} 2 0).
Proof.
  eexists. split; [by apply Unit_truediv_ok|]. split; [|split].
  - intros d. by rewrite bases_Unit.
  - qc_eq.
  - qc_neq.
Qed.

(** C2.  The metre times Celsius, the very product the assertion message
    of [Unit.__mul__] calls ridiculous, is accepted: only the offset of the
    left operand is checked.  The right operand's offset -273.15 is dropped
    from the result. *)
Theorem C2_mul_accepts_affine_right_operand :
  Unit.offset unit_py.C <> 0 /\
  exists r,
    Unit.__mul__ unit_py.m unit_py.C = Ok r /\
    Unit.offset r = 0 /\
    Unit.factor r = 1 /\
    Unit.bases r METER = 1 /\ Unit.bases r KELVIN = 1.
Proof.
  split; [qc_neq|].
  eexists. split; [by apply Unit_mul_ok|].
  repeat split; try rewrite bases_Unit; qc_eq.
Qed.

(** ** Addition and subtraction of quantities *)

Lemma add_unfold a b :
  Unit.eq (UnitVal.unit a) (UnitVal.unit b) = true ->
  UnitVal.__add__ a b =
    un ← Unit.__mul__ (UnitVal.unit a) (UnitVal.unit b);
    Ok (UnitVal.UnitVal (UnitVal.val a + UnitVal.val b) un).
Proof. intros H. unfold UnitVal.__add__. by rewrite H. Qed.

Lemma sub_unfold a b :
  Unit.eq (UnitVal.unit a) (UnitVal.unit b) = true ->
  UnitVal.__sub__ a b =
    un ← Unit.__mul__ (UnitVal.unit a) (UnitVal.unit b);
    Ok (UnitVal.UnitVal (UnitVal.val a - UnitVal.val b) un).
Proof. intros H. unfold UnitVal.__sub__. by rewrite H. Qed.

Lemma Qc_double_neq (e : Qc) : e <> 0 -> e + e <> e.
Proof.
  intros He H. apply He.
  replace e with (e + e - e) at 1 by ring. rewrite H. ring.
Qed.

(** C3, the claim as stated fails: two quantities in Celsius have equal
    units, and their sum is no quantity at all but the assertion failure of
    [Unit.__mul__]. *)
Lemma C3_counterexample_celsius :
  Unit.eq (UnitVal.unit (UnitVal.UnitVal 1 unit_py.C))
          (UnitVal.unit (UnitVal.UnitVal 2 unit_py.C)) = true /\
  UnitVal.__add__ (UnitVal.UnitVal 1 unit_py.C) (UnitVal.UnitVal 2 unit_py.C)
    = Raise (AssertionError Cannot_multiply_offset).
Proof. split; vm_compute; reflexivity. Qed.

(** C3, amended.  Adding two quantities fails with the mismatched-units
    assertion when their units are not structurally equal.  When the units
    are equal and the shared offset is 0, the sum is the quantity whose value
    is [a.val + b.val] and whose unit is the product [a.unit * b.unit]
    (exponents added, factors multiplied, offset 0), which differs from
    [a.unit] as soon as one exponent is not 0.  When the units are equal and
    the offset is not 0, the product and with it the sum fail. *)
Theorem C3_add_equal_units_gives_product_unit (a b : UnitVal.t) :
  (Unit.eq (UnitVal.unit a) (UnitVal.unit b) = false ->
   UnitVal.__add__ a b = Raise (AssertionError Cannot_add_different)) /\
  (Unit.eq (UnitVal.unit a) (UnitVal.unit b) = true ->
   Unit.offset (UnitVal.unit a) = 0 ->
   exists un,
     Unit.__mul__ (UnitVal.unit a) (UnitVal.unit b) = Ok un /\
     UnitVal.__add__ a b = Ok (UnitVal.UnitVal (UnitVal.val a + UnitVal.val b) un) /\
     (forall d, Unit.bases un d =
                Unit.bases (UnitVal.unit a) d + Unit.bases (UnitVal.unit b) d) /\
     Unit.factor un = Unit.factor (UnitVal.unit a) * Unit.factor (UnitVal.unit b) /\
     Unit.offset un = 0 /\
     (forall d, Unit.bases (UnitVal.unit a) d <> 0 ->
                Unit.eq un (UnitVal.unit a) = false)) /\
  (Unit.eq (UnitVal.unit a) (UnitVal.unit b) = true ->
   Unit.offset (UnitVal.unit a) <> 0 ->
   UnitVal.__add__ a b = Raise (AssertionError Cannot_multiply_offset)).
Proof.
  split; [|split].
  - intros H. unfold UnitVal.__add__. by rewrite H.
  - intros Heq Hoff. eexists. split; [by apply Unit_mul_ok|].
    split; [by rewrite add_unfold, Unit_mul_ok|].
    split; [intros d; by rewrite bases_Unit|].
    do 2 (split; [reflexivity|]).
    intros d Hd. apply not_true_iff_false. rewrite Unit_eq_true.
    intros (_ & _ & Hb). specialize (Hb d). rewrite bases_Unit in Hb.
    apply Unit_eq_true in Heq as (_ & _ & Hab). rewrite <- Hab in Hb.
    by apply Qc_double_neq in Hb.
  - intros Heq Hoff. by rewrite add_unfold, Unit_mul_affine.
Qed.

(** One metre plus one second, two metres plus one metre, and one plus two
    degrees Celsius. *)
Lemma C3_add_witness :
  UnitVal.__add__ (UnitVal.UnitVal 1 unit_py.m) (UnitVal.UnitVal 1 unit_py.s)
    = Raise (AssertionError Cannot_add_different) /\
  (exists un,
     Unit.__mul__ unit_py.m unit_py.m = Ok un /\
     UnitVal.__add__ (UnitVal.UnitVal 2 unit_py.m) (UnitVal.UnitVal 1 unit_py.m)
       = Ok (UnitVal.UnitVal (2 + 1) un) /\
     (forall d, Unit.bases un d = Unit.bases unit_py.m d + Unit.bases unit_py.m d) /\
     Unit.factor un = 1 * 1 /\
     Unit.offset un = 0 /\
     (forall d, Unit.bases unit_py.m d <> 0 -> Unit.eq un unit_py.m = false)) /\
  UnitVal.__add__ (UnitVal.UnitVal 1 unit_py.C) (UnitVal.UnitVal 2 unit_py.C)
    = Raise (AssertionError Cannot_multiply_offset).
Proof.
  split; [|split].
  - apply (C3_add_equal_units_gives_product_unit
             (UnitVal.UnitVal 1 unit_py.m) (UnitVal.UnitVal 1 unit_py.s)).
    vm_compute; reflexivity.
  - apply (C3_add_equal_units_gives_product_unit
             (UnitVal.UnitVal 2 unit_py.m) (UnitVal.UnitVal 1 unit_py.m)).
    + vm_compute; reflexivity.
    + reflexivity.
  - apply (C3_add_equal_units_gives_product_unit
             (UnitVal.UnitVal 1 unit_py.C) (UnitVal.UnitVal 2 unit_py.C)).
    + vm_compute; reflexivity.
    + qc_neq.
Defined.

(** C10.  When the two units are structurally equal and their offset is
    not 0, addition and subtraction both fail with the assertion of
    [Unit.__mul__] (the result unit is computed as [self.unit*u.unit], and
    the product rejects a left operand with an offset); addition of
    equal-unit quantities returns a result exactly when the offset is 0. *)
Theorem C10_affine_units_cannot_be_added (a b : UnitVal.t) :
  Unit.eq (UnitVal.unit a) (UnitVal.unit b) = true ->
  (Unit.offset (UnitVal.unit a) <> 0 ->
   UnitVal.__add__ a b = Raise (AssertionError Cannot_multiply_offset) /\
   UnitVal.__sub__ a b = Raise (AssertionError Cannot_multiply_offset)) /\
  ((exists r, UnitVal.__add__ a b = Ok r) <-> Unit.offset (UnitVal.unit a) = 0).
Proof.
  intros Heq. split.
  - intros Hoff. by rewrite add_unfold, sub_unfold, Unit_mul_affine.
  - split.
    + intros [r Hr]. destruct (decide (Unit.offset (UnitVal.unit a) = 0)) as [|Hoff]; [done|].
      rewrite add_unfold, Unit_mul_affine in Hr by done. discriminate Hr.
    + intros Hoff. rewrite add_unfold, Unit_mul_ok by done. by eexists.
Qed.

Lemma C10_witness_celsius :
  Unit.eq unit_py.C unit_py.C = true /\
  Unit.offset unit_py.C <> 0 /\
  UnitVal.__add__ (UnitVal.UnitVal 1 unit_py.C) (UnitVal.UnitVal 2 unit_py.C)
    = Raise (AssertionError Cannot_multiply_offset) /\
  UnitVal.__sub__ (UnitVal.UnitVal 1 unit_py.C) (UnitVal.UnitVal 2 unit_py.C)
    = Raise (AssertionError Cannot_multiply_offset).
Proof.
  assert (Heq : Unit.eq unit_py.C unit_py.C = true) by (vm_compute; reflexivity).
  assert (Hoff : Unit.offset unit_py.C <> 0) by qc_neq.
  split; [exact Heq|]. split; [exact Hoff|].
  exact (proj1 (C10_affine_units_cannot_be_added
                  (UnitVal.UnitVal 1 unit_py.C) (UnitVal.UnitVal 2 unit_py.C) Heq)
               Hoff).
Defined.

(** ** Conversion *)

Lemma to_Some_unfold q t :
  (forall d, Unit.bases t d = Unit.bases (UnitVal.unit q) d) ->
  UnitVal.to q (Some t) =
    self_si ← UnitVal.__call__ q;
    Ok (UnitVal.UnitVal (self_si * Unit.factor t + Unit.offset t) t).
Proof.
  intros H. unfold UnitVal.to, UnitVal.__call__.
  rewrite assert_true; [done|]. by apply bases_eq_true.
Qed.

Lemma to_Some_ok q t :
  (forall d, Unit.bases t d = Unit.bases (UnitVal.unit q) d) ->
  Unit.factor (UnitVal.unit q) <> 0 ->
  exists q1,
    UnitVal.to q (Some t) = Ok q1 /\
    UnitVal.val q1 =
      (UnitVal.val q - Unit.offset (UnitVal.unit q)) / Unit.factor (UnitVal.unit q)
      * Unit.factor t + Unit.offset t /\
    UnitVal.unit q1 = t.
Proof.
  intros Hb Hf. rewrite to_Some_unfold by done. unfold UnitVal.__call__.
  rewrite truediv_ok by done. eexists. split; [reflexivity|]. by split.
Qed.

(** Nothing in the source keeps a factor away from 0; there the division
    of the conversion raises. *)
Lemma to_zero_factor q t :
  (forall d, Unit.bases t d = Unit.bases (UnitVal.unit q) d) ->
  Unit.factor (UnitVal.unit q) = 0 ->
  UnitVal.to q (Some t) = Raise ZeroDivisionError.
Proof.
  intros Hb Hf. rewrite to_Some_unfold by done. unfold UnitVal.__call__.
  by rewrite Hf, truediv_zero.
Qed.

(** C4.  Converting [q] to a target [t] fails with the assertion 'Cannot
    convert' when the exponents of [t] differ from those of [q.unit].  When
    they agree, the conversion computes the SI value of [q] as [__call__]
    does and returns the quantity with unit [t] and value [si * t.factor +
    t.offset]; the SI value is [(q.val - q.unit.offset) / q.unit.factor],
    a division that is defined for a factor other than 0 (the data model
    takes factors to be positive).  Without a target the conversion is the
    one to the unit with the exponents of [q.unit], factor 1 and offset 0. *)
Theorem C4_to_converts_through_the_SI_value (q : UnitVal.t) (t : Unit.t) :
  ((exists d, Unit.bases t d <> Unit.bases (UnitVal.unit q) d) ->
   UnitVal.to q (Some t) = Raise (AssertionError Cannot_convert)) /\
  ((forall d, Unit.bases t d = Unit.bases (UnitVal.unit q) d) ->
   UnitVal.to q (Some t) =
     (si ← UnitVal.__call__ q;
      Ok (UnitVal.UnitVal (si * Unit.factor t + Unit.offset t) t)) /\
   (Unit.factor (UnitVal.unit q) <> 0 ->
    UnitVal.__call__ q =
      Ok ((UnitVal.val q - Unit.offset (UnitVal.unit q)) / Unit.factor (UnitVal.unit q)) /\
    UnitVal.to q (Some t) =
      Ok (UnitVal.UnitVal
            ((UnitVal.val q - Unit.offset (UnitVal.unit q)) / Unit.factor (UnitVal.unit q)
             * Unit.factor t + Unit.offset t) t))) /\
  (exists si,
     UnitVal.to q None = UnitVal.to q (Some si) /\
     (forall d, Unit.bases si d = Unit.bases (UnitVal.unit q) d) /\
     Unit.factor si = 1 /\ Unit.offset si = 0).
Proof.
  split; [|split].
  - intros H. apply bases_eq_false in H. unfold UnitVal.to.
    by rewrite assert_false.
  - intros Hb. split; [by apply to_Some_unfold|]. intros Hf.
    assert (Hsi : UnitVal.__call__ q =
      Ok ((UnitVal.val q - Unit.offset (UnitVal.unit q)) / Unit.factor (UnitVal.unit q)))
      by (by apply truediv_ok).
    split; [exact Hsi|]. by rewrite to_Some_unfold, Hsi.
  - exists (Unit.Unit "" (comprehension (Unit.bases (UnitVal.unit q))) 1 0).
    split; [reflexivity|]. split; [|done].
    intros d. by rewrite bases_Unit.
Qed.

(** A length to Celsius, and 212 degrees Fahrenheit to Celsius. *)
Lemma C4_to_witness :
  UnitVal.to (UnitVal.UnitVal 1 unit_py.m) (Some unit_py.C)
    = Raise (AssertionError Cannot_convert) /\
  UnitVal.__call__ (UnitVal.UnitVal (Qc_of_Z 212) unit_py.F) =
    Ok ((Qc_of_Z 212 - Unit.offset unit_py.F) / Unit.factor unit_py.F) /\
  UnitVal.to (UnitVal.UnitVal (Qc_of_Z 212) unit_py.F) (Some unit_py.C) =
    Ok (UnitVal.UnitVal
          ((Qc_of_Z 212 - Unit.offset unit_py.F) / Unit.factor unit_py.F
           * Unit.factor unit_py.C + Unit.offset unit_py.C) unit_py.C).
Proof.
  split.
  - apply (C4_to_converts_through_the_SI_value (UnitVal.UnitVal 1 unit_py.m) unit_py.C).
    exists METER. qc_neq.
  - apply (C4_to_converts_through_the_SI_value
             (UnitVal.UnitVal (Qc_of_Z 212) unit_py.F) unit_py.C).
    + intros d. destruct d; qc_eq.
    + qc_neq.
Defined.

(** C8.  Converting [q] to a unit [t] with the same exponents and then back
    to the unit of [q] returns a quantity with the value and the unit of
    [q]: under exact arithmetic the round trip is exact.  Both conversions
    divide by a factor, so both factors are taken other than 0 (the data
    model takes factors to be positive). *)
Theorem C8_conversion_round_trip (q : UnitVal.t) (t : Unit.t) :
  (forall d, Unit.bases t d = Unit.bases (UnitVal.unit q) d) ->
  Unit.factor (UnitVal.unit q) <> 0 ->
  Unit.factor t <> 0 ->
  exists q1 q2,
    UnitVal.to q (Some t) = Ok q1 /\
    UnitVal.to q1 (Some (UnitVal.unit q)) = Ok q2 /\
    UnitVal.val q2 = UnitVal.val q /\
    UnitVal.unit q2 = UnitVal.unit q.
Proof.
  intros Hb Hq Ht.
  destruct (to_Some_ok q t Hb Hq) as [q1 [Hq1 [Hv1 Hu1]]].
  assert (Hb' : forall d, Unit.bases (UnitVal.unit q) d = Unit.bases (UnitVal.unit q1) d)
    by (intros d; by rewrite Hu1, Hb).
  assert (Hq1f : Unit.factor (UnitVal.unit q1) <> 0) by (by rewrite Hu1).
  destruct (to_Some_ok q1 (UnitVal.unit q) Hb' Hq1f) as [q2 [Hq2 [Hv2 Hu2]]].
  exists q1, q2. split; [exact Hq1|]. split; [exact Hq2|]. split; [|exact Hu2].
  rewrite Hv2, Hv1, Hu1. field. by split.
Qed.

(** 212 degrees Fahrenheit are 100 degrees Celsius. *)
Example boiling_point :
  exists r,
    UnitVal.to (Unit__rmul__ unit_py.F (Qc_of_Z 212)) (Some unit_py.C) = Ok r /\
    UnitVal.val r = Qc_of_Z 100 /\ UnitVal.unit r = unit_py.C.
Proof.
  eexists. split; [vm_compute; reflexivity|]. split; [qc_eq|reflexivity].
Qed.

(** 212 degrees Fahrenheit to Celsius and back. *)
Lemma C8_round_trip_witness :
  (forall d, Unit.bases unit_py.C d = Unit.bases unit_py.F d) /\
  Unit.factor unit_py.F <> 0 /\
  Unit.factor unit_py.C <> 0 /\
  exists q1 q2,
    UnitVal.to (UnitVal.UnitVal (Qc_of_Z 212) unit_py.F) (Some unit_py.C) = Ok q1 /\
    UnitVal.to q1 (Some unit_py.F) = Ok q2 /\
    UnitVal.val q2 = Qc_of_Z 212 /\
    UnitVal.unit q2 = unit_py.F.
Proof.
  assert (Hb : forall d, Unit.bases unit_py.C d = Unit.bases unit_py.F d)
    by (intros d; destruct d; qc_eq).
  assert (HF : Unit.factor unit_py.F <> 0) by qc_neq.
  assert (HC : Unit.factor unit_py.C <> 0) by qc_neq.
  split; [exact Hb|]. split; [exact HF|]. split; [exact HC|].
  exact (C8_conversion_round_trip
           (UnitVal.UnitVal (Qc_of_Z 212) unit_py.F) unit_py.C Hb HF HC).
Defined.

(** ** Safe constructors *)

(** C5.  The safe constructor for the expected dimension [D] returns a
    result exactly when the exponents of [q.unit] equal those of [D]; no
    condition bears on the factor or the offset of [q.unit].  The result is
    [q] itself, value and unit unchanged.  When one exponent differs the
    constructor fails with the assertion 'invalid unit'. *)
Theorem C5_safe_constructor_checks_exponents_only (D : Unit.t) (q : UnitVal.t) :
  ((exists r, SafeConstructor.__init__ D q = Ok r) <->
   (forall d, Unit.bases (UnitVal.unit q) d = Unit.bases D d)) /\
  (forall r, SafeConstructor.__init__ D q = Ok r -> r = q) /\
  ((exists d, Unit.bases (UnitVal.unit q) d <> Unit.bases D d) ->
   SafeConstructor.__init__ D q = Raise (AssertionError Invalid_unit)).
Proof.
  unfold SafeConstructor.__init__.
  destruct (Unit.bases_eq (Unit.bases (UnitVal.unit q)) (Unit.bases D)) eqn:Hb;
    cbn [assert mbind result_bind].
  - pose proof (proj1 (bases_eq_true _ _) Hb) as Hall.
    split; [|split].
    + split; [done|]. intros _. by eexists.
    + intros r [= <-]. by destruct q.
    + intros [d Hd]. by destruct Hd.
  - pose proof (proj1 (bases_eq_false _ _) Hb) as [d Hd].
    split; [|split].
    + split; [by intros [r Hr]|]. intros Hall. by destruct Hd.
    + by intros r Hr.
    + done.
Qed.

(** 32 degrees Fahrenheit is accepted as a temperature and stays 32 degrees
    Fahrenheit; a length is not a temperature. *)
Lemma C5_safe_constructor_witness :
  Temp (UnitVal.UnitVal (Qc_of_Z 32) unit_py.F) = Ok (UnitVal.UnitVal (Qc_of_Z 32) unit_py.F) /\
  Temp (UnitVal.UnitVal 1 unit_py.m) = Raise (AssertionError Invalid_unit).
Proof.
  split.
  - destruct (C5_safe_constructor_checks_exponents_only
                unit_py.K (UnitVal.UnitVal (Qc_of_Z 32) unit_py.F)) as (Hiff & Hsame & _).
    destruct (proj2 Hiff) as [r Hr]; [intros d; destruct d; qc_eq|].
    unfold Temp. rewrite Hr. f_equal. by apply Hsame.
  - apply (C5_safe_constructor_checks_exponents_only unit_py.K (UnitVal.UnitVal 1 unit_py.m)).
    exists METER. qc_neq.
Defined.

(** ** The reciprocal *)

(** C6.  [v // a] with [v == 1], on a unit [a] of offset 0, returns the unit
    whose exponents are those of [a] negated and whose factor is [1 /
    a.factor]; the division needs the factor of [a] to be other than 0 (the
    data model takes factors to be positive).  A numerator other than 1
    fails, and so does a unit with an offset.  [Hz] is defined as [1 // s],
    so the reciprocal of the second is equal to it: exponent -1 on the second
    and 0 elsewhere, factor 1, offset 0. *)
Theorem C6_rfloordiv_is_the_reciprocal (a : Unit.t) (v : Qc) :
  (v = 1 -> Unit.offset a = 0 -> Unit.factor a <> 0 ->
   exists r,
     Unit.__rfloordiv__ a v = Ok r /\
     (forall d, Unit.bases r d = - Unit.bases a d) /\
     Unit.factor r = 1 / Unit.factor a /\
     Unit.offset r = 0) /\
  (v <> 1 -> Unit.__rfloordiv__ a v = Raise (AssertionError Numerator_not_1)) /\
  (v = 1 -> Unit.offset a <> 0 ->
   Unit.__rfloordiv__ a v = Raise (AssertionError Cannot_invert_offset)) /\
  (exists r hz,
     Unit.__rfloordiv__ unit_py.s 1 = Ok r /\
     unit_py.Hz = Ok hz /\
     Unit.eq r hz = true /\
     (forall d, Unit.bases hz d = if decide (d = SECOND) then -1 else 0) /\
     Unit.factor hz = 1 /\ Unit.offset hz = 0).
Proof.
  unfold Unit.__rfloordiv__. split; [|split; [|split]].
  - intros -> Ho Hf. rewrite !assert_true by (by apply bool_decide_eq_true_2).
    rewrite truediv_ok by done. eexists. split; [reflexivity|].
    split; [|split; reflexivity].
    intros d. by rewrite bases_Unit.
  - intros Hv. rewrite (assert_false (bool_decide (v = 1))); [done|].
    by apply bool_decide_eq_false_2.
  - intros -> Ho. rewrite (assert_true (bool_decide (1 = 1))) by done.
    rewrite assert_false; [done|]. by apply bool_decide_eq_false_2.
  - unfold unit_py.Hz, Unit.__rfloordiv__.
    rewrite !assert_true by (by apply bool_decide_eq_true_2).
    rewrite truediv_ok by qc_neq.
    do 2 eexists. split; [reflexivity|]. split; [reflexivity|].
    split; [apply Unit_eq_true; by repeat split|].
    split; [|split; qc_eq].
    intros d. rewrite bases_Unit. destruct d; qc_eq.
Qed.

(** Nothing in the source keeps a factor away from 0; there the division
    of the reciprocal raises. *)
Lemma rfloordiv_zero_factor (a : Unit.t) :
  Unit.offset a = 0 -> Unit.factor a = 0 ->
  Unit.__rfloordiv__ a 1 = Raise ZeroDivisionError.
Proof.
  intros Ho Hf. unfold Unit.__rfloordiv__.
  rewrite !assert_true by (by apply bool_decide_eq_true_2).
  by rewrite Hf, truediv_zero.
Qed.

(** The reciprocal of the second, [2 // s], and [1 // C]. *)
Lemma C6_rfloordiv_witness :
  (exists r,
     Unit.__rfloordiv__ unit_py.s 1 = Ok r /\
     (forall d, Unit.bases r d = - Unit.bases unit_py.s d) /\
     Unit.factor r = 1 / Unit.factor unit_py.s /\
     Unit.offset r = 0) /\
  Unit.__rfloordiv__ unit_py.s 2 = Raise (AssertionError Numerator_not_1) /\
  Unit.__rfloordiv__ unit_py.C 1 = Raise (AssertionError Cannot_invert_offset).
Proof.
  split; [|split].
  - apply (C6_rfloordiv_is_the_reciprocal unit_py.s 1); [reflexivity|reflexivity|qc_neq].
  - apply (C6_rfloordiv_is_the_reciprocal unit_py.s 2). qc_neq.
  - apply (C6_rfloordiv_is_the_reciprocal unit_py.C 1); [reflexivity|qc_neq].
Defined.

(** ** Casts to plain numbers *)

Lemma unitless_true q :
  UnitVal.unitless q = true <-> forall d, Unit.bases (UnitVal.unit q) d = 0.
Proof.
  unfold UnitVal.unitless, Unit.values. rewrite forallb_forall. split.
  - intros H d. eapply bool_decide_eq_true_1, H.
    apply in_map. destruct d; cbn; tauto.
  - intros H x Hx. apply in_map_iff in Hx as (d & <- & _).
    by apply bool_decide_eq_true_2.
Qed.

Lemma unitless_false q :
  UnitVal.unitless q = false <-> exists d, Unit.bases (UnitVal.unit q) d <> 0.
Proof.
  split.
  - intros H.
    destruct (decide (Forall (fun d => Unit.bases (UnitVal.unit q) d = 0) members))
      as [Hall|Hex].
    + apply not_true_iff_false in H. destruct H. apply unitless_true.
      intros d. rewrite Forall_forall in Hall. apply Hall. destruct d; set_solver.
    + apply not_Forall_Exists in Hex; [|apply _].
      apply Exists_exists in Hex as (d & _ & Hd). by exists d.
  - intros [d Hd]. apply not_true_iff_false. rewrite unitless_true. naive_solver.
Qed.

Lemma int_Qc_of_Z (z : Z) : int (Qc_of_Z z) = z.
Proof. unfold int. cbn. apply Z.quot_1_r. Qed.

(** [int(x) == x] holds exactly for the integers. *)
Lemma int_fixed (x : Qc) : Qc_of_Z (int x) = x <-> exists z, x = Qc_of_Z z.
Proof.
  split; [by eexists|]. intros [z ->]. by rewrite int_Qc_of_Z.
Qed.

(** C7.  The cast to a plain number returns [q.val] itself when every
    exponent of [q.unit] is 0, whatever the factor and the offset, and fails
    with the assertion 'Cannot cast into unitless number' when one exponent
    is not 0.  The cast to an integer fails in the same way on a unit with
    an exponent other than 0; on a unit without, it returns the integer [z]
    when [q.val] is the integer [z], and fails with the assertion 'Cannot
    cast to integer' when [q.val] is no integer. *)
Theorem C7_casts_need_zero_exponents (q : UnitVal.t) :
  ((forall d, Unit.bases (UnitVal.unit q) d = 0) ->
   UnitVal.__float__ q = Ok (UnitVal.val q)) /\
  ((exists d, Unit.bases (UnitVal.unit q) d <> 0) ->
   UnitVal.__float__ q = Raise (AssertionError Cannot_cast_unitless) /\
   UnitVal.__int__ q = Raise (AssertionError Cannot_cast_unitless)) /\
  ((forall d, Unit.bases (UnitVal.unit q) d = 0) ->
   forall z : Z, UnitVal.val q = Qc_of_Z z -> UnitVal.__int__ q = Ok z) /\
  ((forall d, Unit.bases (UnitVal.unit q) d = 0) ->
   (forall z : Z, UnitVal.val q <> Qc_of_Z z) ->
   UnitVal.__int__ q = Raise (AssertionError Cannot_cast_integer)).
Proof.
  unfold UnitVal.__float__, UnitVal.__int__. split; [|split; [|split]].
  - intros H. apply unitless_true in H. by rewrite H.
  - intros H. apply unitless_false in H. by rewrite H.
  - intros H z Hz. apply unitless_true in H. rewrite H, Hz, int_Qc_of_Z.
    by rewrite bool_decide_eq_true_2.
  - intros H Hz. apply unitless_true in H. rewrite H.
    rewrite bool_decide_eq_false_2; [done|].
    intros Hfix. by apply (Hz (int (UnitVal.val q))).
Qed.

(** The plain number 10 casts to the number and to the integer 10; a
    hundred metres do not cast; a half casts to no integer. *)
Lemma C7_casts_witness :
  UnitVal.__float__ (UnitVal.UnitVal (Qc_of_Z 10) Unit.Unit0) = Ok (Qc_of_Z 10) /\
  (UnitVal.__float__ (UnitVal.UnitVal (Qc_of_Z 100) unit_py.m)
     = Raise (AssertionError Cannot_cast_unitless) /\
   UnitVal.__int__ (UnitVal.UnitVal (Qc_of_Z 100) unit_py.m)
     = Raise (AssertionError Cannot_cast_unitless)) /\
  UnitVal.__int__ (UnitVal.UnitVal (Qc_of_Z 10) Unit.Unit0) = Ok 10%Z /\
  UnitVal.__int__ (UnitVal.UnitVal (Q2Qc (1 # 2)) Unit.Unit0)
    = Raise (AssertionError Cannot_cast_integer).
Proof.
  assert (H0 : forall d, Unit.bases Unit.Unit0 d = 0) by (intros d; destruct d; qc_eq).
  split; [|split; [|split]].
  - apply (C7_casts_need_zero_exponents (UnitVal.UnitVal (Qc_of_Z 10) Unit.Unit0)).
    exact H0.
  - apply (C7_casts_need_zero_exponents (UnitVal.UnitVal (Qc_of_Z 100) unit_py.m)).
    exists METER. qc_neq.
  - apply (C7_casts_need_zero_exponents (UnitVal.UnitVal (Qc_of_Z 10) Unit.Unit0));
      [exact H0|reflexivity].
  - apply (C7_casts_need_zero_exponents (UnitVal.UnitVal (Q2Qc (1 # 2)) Unit.Unit0)).
    + exact H0.
    + intros z Hz. apply (f_equal (fun x => Qden (this x))) in Hz. discriminate Hz.
Defined.

(** [float(100*m / (10*m))] is 10, [float(100*m / (1*s))] fails
    ([example.py]). *)
Example float_of_a_ratio :
  exists ratio x,
    UnitVal.__truediv__ (Unit__rmul__ unit_py.m (Qc_of_Z 100))
                        (inl (Unit__rmul__ unit_py.m (Qc_of_Z 10))) = Ok ratio /\
    UnitVal.__float__ ratio = Ok x /\ x = Qc_of_Z 10.
Proof.
  do 2 eexists. split; [vm_compute; reflexivity|].
  split; [vm_compute; reflexivity|qc_eq].
Qed.

Example float_of_a_velocity :
  exists veloc,
    UnitVal.__truediv__ (Unit__rmul__ unit_py.m (Qc_of_Z 100))
                        (inl (Unit__rmul__ unit_py.s 1)) = Ok veloc /\
    UnitVal.__float__ veloc = Raise (AssertionError Cannot_cast_unitless).
Proof. eexists. split; vm_compute; reflexivity. Qed.

(** ** The label of a unit *)

(** ** The order of the sort *)

Lemma String_leb_iff (a b : string) :
  String.leb a b = true <-> a = b \/ OrderedTypeEx.String_as_OT.lt a b.
Proof.
  unfold String.leb.
  destruct (String.compare a b) eqn:Hc.
  - apply OrderedTypeEx.String_as_OT.cmp_eq in Hc. tauto.
  - apply OrderedTypeEx.String_as_OT.cmp_lt in Hc. tauto.
  - split; [discriminate|]. intros [->|Hlt].
    + pose proof (proj2 (OrderedTypeEx.String_as_OT.cmp_eq b b) eq_refl) as Hbb.
      unfold OrderedTypeEx.String_as_OT.cmp in Hbb. congruence.
    + apply OrderedTypeEx.String_as_OT.cmp_lt in Hlt.
      unfold OrderedTypeEx.String_as_OT.cmp in Hlt. congruence.
Qed.

Lemma String_leb_trans (a b c : string) :
  String.leb a b = true -> String.leb b c = true -> String.leb a c = true.
Proof.
  rewrite !String_leb_iff. intros [->|Hab] [->|Hbc]; auto.
  right. eapply OrderedTypeEx.String_as_OT.lt_trans; eauto.
Qed.

Global Instance tuple_le_total : Total Unit.tuple_le.
Proof.
  intros [p a] [q b]. unfold Unit.tuple_le. cbn.
  destruct (Qclt_le_dec p q) as [|Hqp]; [by left; left|].
  destruct (Qclt_le_dec q p) as [|Hpq]; [by right; left|].
  assert (p = q) as -> by (by apply Qcle_antisym).
  destruct (String.leb_total a b); [left|right]; by right.
Qed.

Global Instance tuple_le_trans : Transitive Unit.tuple_le.
Proof.
  intros [p a] [q b] [r c]. unfold Unit.tuple_le. cbn.
  intros [Hpq|[-> Hab]] [Hqr|[-> Hbc]].
  - left. by eapply Qclt_trans.
  - by left.
  - by left.
  - right. split; [done|]. by eapply String_leb_trans.
Qed.

Lemma StronglySorted_reverse {A} (R : relation A) (l : list A) :
  StronglySorted R l -> StronglySorted (flip R) (reverse l).
Proof.
  induction 1 as [|x l Hl IH Hx]; [constructor|].
  rewrite reverse_cons. apply StronglySorted_app_2; [|done|by repeat constructor].
  intros y z Hy Hz. apply list_elem_of_singleton in Hz as ->.
  rewrite elem_of_reverse in Hy. rewrite Forall_forall in Hx. by apply Hx.
Qed.

(** Where no two tuples share an exponent, the descending order is strict
    in the exponent. *)
Lemma descending_strict (l : list (Qc * string)) :
  NoDup l.*1 -> StronglySorted (flip Unit.tuple_le) l ->
  StronglySorted (fun x y => y.1 < x.1) l.
Proof.
  intros Hnd Hs. induction Hs as [|x l Hl IH Hx]; [constructor|].
  rewrite fmap_cons in Hnd. apply NoDup_cons in Hnd as [Hx1 Hnd].
  constructor; [by apply IH|].
  rewrite Forall_forall in Hx |- *. intros y Hy.
  destruct (Hx y Hy) as [Hlt|[Heq _]]; [done|].
  destruct Hx1. rewrite <- Heq. by apply list_elem_of_fmap_2.
Qed.

(** ** The dict keyed by the exponent *)

Lemma setitem_fresh {K V} `{EqDecision K} (d : list (K * V)) k v :
  k ∉ d.*1 -> setitem d k v = d ++ [(k, v)].
Proof.
  induction d as [|[k' v'] d IH]; [done|]. cbn. intros Hk.
  apply not_elem_of_cons in Hk as [Hne Hk].
  rewrite decide_False by done. by rewrite IH.
Qed.

Lemma basedict_fold (xs : list (SIBase * Qc)) (d : list (Qc * string)) :
  NoDup (d.*1 ++ filter (fun x => x <> 0) xs.*2) ->
  foldl (fun d '(k, pow) =>
           if bool_decide (pow = 0) then d else setitem d pow (value k)) d xs =
    d ++ ((fun x => (x.2, value x.1)) <$> filter (fun x => x.2 <> 0) xs).
Proof.
  revert d. induction xs as [|[k pow] xs IH]; intros d Hnd.
  - by rewrite app_nil_r.
  - cbn [foldl]. rewrite fmap_cons in Hnd. cbn [snd] in Hnd.
    destruct (decide (pow = 0)) as [->|Hpow].
    + rewrite bool_decide_eq_true_2 by done. rewrite filter_cons_False in Hnd by (by intros []).
      rewrite IH by done. by rewrite filter_cons_False by (by intros []).
    + rewrite bool_decide_eq_false_2 by done.
      rewrite filter_cons_True in Hnd by done.
      rewrite (filter_cons_True (fun x => x.2 <> 0)) by done.
      apply NoDup_app in Hnd as (Hd & Hdis & Hrest).
      rewrite setitem_fresh by (intros Hin; apply (Hdis _ Hin); by left).
      rewrite IH.
      * by rewrite <- app_assoc.
      * rewrite fmap_app. cbn. rewrite <- app_assoc. cbn.
        apply NoDup_app. split; [done|]. split; [|done]. done.
Qed.

Lemma filter_fmap_pre {A B} (f : A -> B) (P : B -> Prop)
    `{forall y, Decision (P y)} (l : list A) :
  filter P (f <$> l) = f <$> filter (fun x => P (f x)) l.
Proof.
  induction l as [|x l IH]; [done|]. rewrite fmap_cons.
  destruct (decide (P (f x))) as [Hx|Hx].
  - rewrite !filter_cons_True by done. by rewrite IH.
  - rewrite !filter_cons_False by done. by rewrite IH.
Qed.

Lemma basedict_distinct (u : Unit.t) :
  NoDup (filter (fun x => x <> 0) (Unit.values (Unit.bases u))) ->
  Unit.basedict u =
    (fun d => (Unit.bases u d, value d))
      <$> filter (fun d => Unit.bases u d <> 0) members.
Proof.
  intros Hnd. unfold Unit.basedict, Unit.items.
  rewrite basedict_fold.
  - cbn [app]. rewrite filter_fmap_pre, <- list_fmap_compose. done.
  - cbn [fmap list_fmap app]. by rewrite <- list_fmap_compose.
Qed.

(** C9, the claim as stated fails: a unit of factor 2 on the metre gets
    the label "m", without the factor suffix that the described label
    "m x 2" ends with.  [stdLabel] builds the label from the exponents alone;
    the suffixes belong to [__str__]. *)
Lemma C9_counterexample_no_factor_suffix :
  Unit.factor double_metre <> 1 /\
  Unit.label (Unit.stdLabel double_metre) = "m"%string /\
  spec_canonicalLabel double_metre = "m x 2"%string /\
  Unit.label (Unit.stdLabel double_metre) <> spec_canonicalLabel double_metre.
Proof.
  split; [qc_neq|]. split; [vm_compute; reflexivity|].
  split; [vm_compute; reflexivity|]. vm_compute. discriminate.
Qed.

(** The dict of [stdLabel] is keyed by the exponent, so of several
    dimensions with one exponent only the last survives: kilogram times metre
    is labelled "m". *)
Lemma stdLabel_drops_equal_exponents :
  Unit.bases kilogram_metre KILOGRAM <> 0 /\
  Unit.bases kilogram_metre METER <> 0 /\
  Unit.label (Unit.stdLabel kilogram_metre) = "m"%string.
Proof. split; [qc_neq|]. split; [qc_neq|]. vm_compute; reflexivity. Qed.

(** C9, amended.  For a unit whose exponents other than 0 are pairwise
    distinct, the label of [stdLabel] is the list [l] of (exponent, symbol)
    pairs rendered symbol by symbol ([^exponent] appended unless the exponent
    is 1) and joined by the multiplication glyph, where [l] holds exactly one
    pair per base dimension with an exponent other than 0 and is in strictly
    descending order of exponent.  The label carries no factor or offset
    suffix: the label described by the specification is this label followed
    by the two suffixes of [__str__], and the factor, the offset and the
    exponents are those of the unit itself. *)
Theorem C9_stdLabel_of_distinct_exponents (u : Unit.t) :
  NoDup (filter (fun x => x <> 0) (Unit.values (Unit.bases u))) ->
  exists l : list (Qc * string),
    Unit.label (Unit.stdLabel u) = join middot (Unit.symbol <$> l) /\
    l ≡ₚ (fun d => (Unit.bases u d, value d))
           <$> filter (fun d => Unit.bases u d <> 0) members /\
    StronglySorted (fun x y => y.1 < x.1) l /\
    spec_canonicalLabel u =
      Unit.label (Unit.stdLabel u) +:+ strfactor u +:+ stroffset u /\
    Unit.factor (Unit.stdLabel u) = Unit.factor u /\
    Unit.offset (Unit.stdLabel u) = Unit.offset u /\
    (forall d, Unit.bases (Unit.stdLabel u) d = Unit.bases u d).
Proof.
  intros Hnd. pose proof (basedict_distinct u Hnd) as Hbd.
  exists (reverse (Unit.sorted (Unit.basedict u))).
  assert (Hperm : reverse (Unit.sorted (Unit.basedict u)) ≡ₚ Unit.basedict u).
  { rewrite reverse_Permutation. apply merge_sort_Permutation. }
  split; [reflexivity|]. split; [by rewrite Hperm, Hbd|].
  split.
  { apply descending_strict.
    - rewrite Hperm, Hbd, <- list_fmap_compose.
      unfold Unit.values in Hnd. by rewrite filter_fmap_pre in Hnd.
    - apply StronglySorted_reverse, StronglySorted_merge_sort; apply _. }
  split; [unfold spec_canonicalLabel, spec_symbols; by rewrite <- Hbd|].
  split; [reflexivity|]. split; [reflexivity|].
  intros d. unfold Unit.stdLabel. by rewrite bases_Unit.
Qed.

(** The joule: exponents 1, 2 and -2. *)
Lemma C9_stdLabel_witness_joule :
  NoDup (filter (fun x => x <> 0) (Unit.values (Unit.bases joule))) /\
  exists l : list (Qc * string),
    Unit.label (Unit.stdLabel joule) = join middot (Unit.symbol <$> l) /\
    l ≡ₚ (fun d => (Unit.bases joule d, value d))
           <$> filter (fun d => Unit.bases joule d <> 0) members /\
    StronglySorted (fun x y => y.1 < x.1) l /\
    spec_canonicalLabel joule =
      Unit.label (Unit.stdLabel joule) +:+ strfactor joule +:+ stroffset joule /\
    Unit.factor (Unit.stdLabel joule) = Unit.factor joule /\
    Unit.offset (Unit.stdLabel joule) = Unit.offset joule /\
    (forall d, Unit.bases (Unit.stdLabel joule) d = Unit.bases joule d).
Proof.
  assert (H : NoDup (filter (fun x => x <> 0) (Unit.values (Unit.bases joule)))).
  { apply (bool_decide_unpack _). vm_compute. exact I. }
  split; [exact H|]. exact (C9_stdLabel_of_distinct_exponents joule H).
Defined.

Example stdLabel_joule :
  Unit.label (Unit.stdLabel joule) = "m^2" +:+ middot +:+ "kg" +:+ middot +:+ "s^-2".
Proof. vm_compute. reflexivity. Qed.

(* ================================================================== *)
(** * Further properties of the package *)

(** ** Powers of rationals *)

Lemma Q2Qc_this (x : Qc) : Q2Qc x = x.
Proof. apply Qc_is_canon. simpl. apply Qred_correct. Qed.

Lemma power_ok (x : Qc) (n : Z) :
  x <> 0 \/ (0 <= n)%Z -> power x n = Ok (Q2Qc (Qpower x n)).
Proof.
  intros H. unfold power.
  destruct H as [H|H].
  - by rewrite (bool_decide_eq_false_2 (x = 0)).
  - rewrite (bool_decide_eq_false_2 (n < 0)%Z) by lia. by rewrite andb_false_r.
Qed.





Lemma Qcpow_1 (x : Qc) : Q2Qc (Qpower x 1) = x.
Proof. apply Q2Qc_this. Qed.

Lemma Qcpow_0 (x : Qc) : Q2Qc (Qpower x 0) = 1.
Proof. reflexivity. Qed.



(** ** Equality of units *)

(** X1.  [==] on units is an equivalence relation: reflexive, symmetric and
    transitive, for plain units and members of [SIBase] alike; and it
    ignores the label: a unit rebuilt under any label from the exponents,
    factor and offset of [a] is equal to [a]. *)
Theorem X1_unit_equality_is_an_equivalence (a b c : Unit.t) :
  Unit.eq a a = true /\
  Unit.eq a b = Unit.eq b a /\
  (Unit.eq a b = true -> Unit.eq b c = true -> Unit.eq a c = true) /\
  (forall l, Unit.eq (Unit.Unit l (comprehension (Unit.bases a)) (Unit.factor a) (Unit.offset a)) a = true).
Proof.
  split; [|split; [|split]].
  - apply Unit_eq_true. done.
  - rewrite !Unit_eq_structural. apply Unit__eq__sym.
  - rewrite !Unit_eq_true. intros (Hf & Ho & Hb) (Hf' & Ho' & Hb').
    repeat split; [congruence..|]. intros d. by rewrite Hb.
  - intros l. apply Unit_eq_true. repeat split. intros d. by rewrite bases_Unit.
Qed.

Lemma X1_witness_unit_equality_is_an_equivalence :
  Unit.eq unit_py.K (SIBase_unit KELVIN) = true /\
  Unit.eq (SIBase_unit KELVIN) (Unit.Unit "kelvin" {[ KELVIN := 1 ]} 1 0) = true /\
  Unit.eq unit_py.K (Unit.Unit "kelvin" {[ KELVIN := 1 ]} 1 0) = true.
Proof.
  assert (H1 : Unit.eq unit_py.K (SIBase_unit KELVIN) = true) by (vm_compute; reflexivity).
  assert (H2 : Unit.eq (SIBase_unit KELVIN) (Unit.Unit "kelvin" {[ KELVIN := 1 ]} 1 0) = true)
    by (vm_compute; reflexivity).
  split; [exact H1|]. split; [exact H2|].
  exact (proj1 (proj2 (proj2 (X1_unit_equality_is_an_equivalence _ _ _))) H1 H2).
Defined.

(** X2.  A base dimension that is no key of the [bases] argument has exponent
    0, and the unit is equal to the one built with that key set to 0. *)
Theorem X2_missing_key_is_exponent_zero (l l' : string) (d : gmap SIBase Qc) (f o : Qc) (b : SIBase) :
  d !! b = None ->
  Unit.bases (Unit.Unit l d f o) b = 0 /\
  Unit.eq (Unit.Unit l d f o) (Unit.Unit l' (<[ b := 0 ]> d) f o) = true.
Proof.
  intros Hb. split; [cbn; by rewrite Hb|].
  apply Unit_eq_true. repeat split. intros x. cbn.
  destruct (decide (b = x)) as [->|Hne].
  - by rewrite Hb, lookup_insert_eq.
  - by rewrite lookup_insert_ne.
Qed.

Lemma X2_witness_missing_key_is_exponent_zero :
  (∅ : gmap SIBase Qc) !! METER = None /\
  Unit.bases (Unit.Unit "" ∅ 1 0) METER = 0 /\
  Unit.eq (Unit.Unit "" ∅ 1 0) (Unit.Unit "one" (<[ METER := 0 ]> ∅) 1 0) = true.
Proof.
  split; [reflexivity|].
  exact (X2_missing_key_is_exponent_zero "" "one" ∅ 1 0 METER eq_refl).
Defined.

(** X3.  Two members of [SIBase] are equal units exactly when they are the
    same member, and [unit()] of a member is a plain unit equal to it:
    its symbol as label, exponent 1 on itself and 0 elsewhere. *)
Theorem X3_members_are_distinct_units (x y : SIBase) :
  (Unit.eq x y = true <-> x = y) /\
  Unit.eq (SIBase_unit x) x = true /\
  (forall d, Unit.bases (SIBase_unit x) d = if decide (d = x) then 1 else 0) /\
  Unit.label (SIBase_unit x) = value x.
Proof.
  split; [|split; [|split]].
  - rewrite Unit_eq_true. split.
    + intros (_ & _ & Hb). specialize (Hb x). cbn in Hb.
      rewrite decide_True in Hb by done. destruct (decide (x = y)); [done|].
      exfalso. revert Hb. qc_neq.
    + by intros ->.
  - apply Unit_eq_true. repeat split. intros d. unfold SIBase_unit. by rewrite bases_Unit.
  - intros d. unfold SIBase_unit. by rewrite bases_Unit.
  - reflexivity.
Qed.

Lemma X3_witness_members_are_distinct_units :
  Unit.eq unit_py.K unit_py.K = true /\ unit_py.K <> unit_py.m.
Proof.
  split.
  - by apply (proj1 (X3_members_are_distinct_units KELVIN KELVIN)).
  - intros H. apply (proj1 (X3_members_are_distinct_units KELVIN METER)) in H.
    vm_compute in H. discriminate H.
Defined.

(** ** Products, quotients and reciprocals of units *)

(** X4.  For two units without offset both products [a*b] and [b*a] are
    returned and are equal units (their labels differ). *)
Theorem X4_unit_product_commutes (a b : Unit.t) :
  Unit.offset a = 0 -> Unit.offset b = 0 ->
  exists r1 r2,
    Unit.__mul__ a b = Ok r1 /\ Unit.__mul__ b a = Ok r2 /\ Unit.eq r1 r2 = true.
Proof.
  intros Ha Hb. do 2 eexists. rewrite !Unit_mul_ok by done.
  split; [reflexivity|]. split; [reflexivity|].
  apply Unit_eq_true. cbn [Unit.factor Unit.offset]. split; [ring|]. split; [done|].
  intros d. rewrite !bases_Unit. ring.
Qed.

Lemma X4_witness_unit_product_commutes :
  exists r1 r2,
    Unit.__mul__ double_metre joule = Ok r1 /\
    Unit.__mul__ joule double_metre = Ok r2 /\ Unit.eq r1 r2 = true.
Proof. apply (X4_unit_product_commutes double_metre joule); reflexivity. Defined.



(** X6.  [Unit()], the unit of plain numbers, is neutral for the product: for
    a unit [a] without offset, [Unit()*a] and [a*Unit()] are equal to [a]. *)
Theorem X6_default_unit_is_neutral (a : Unit.t) :
  Unit.offset a = 0 ->
  exists r1 r2,
    Unit.__mul__ Unit.Unit0 a = Ok r1 /\ Unit.__mul__ a Unit.Unit0 = Ok r2 /\
    Unit.eq r1 a = true /\ Unit.eq r2 a = true.
Proof.
  intros Ha. do 2 eexists. rewrite !Unit_mul_ok by done.
  split; [reflexivity|]. split; [reflexivity|].
  split; apply Unit_eq_true; cbn [Unit.factor Unit.offset Unit.Unit0];
    (split; [ring|]); (split; [done|]);
    intros d; rewrite !bases_Unit; cbn; rewrite lookup_empty; cbn; ring.
Qed.

Lemma X6_witness_default_unit_is_neutral :
  exists r1 r2,
    Unit.__mul__ Unit.Unit0 double_metre = Ok r1 /\
    Unit.__mul__ double_metre Unit.Unit0 = Ok r2 /\
    Unit.eq r1 double_metre = true /\ Unit.eq r2 double_metre = true.
Proof. apply (X6_default_unit_is_neutral double_metre); reflexivity. Defined.







(** ** Powers of units *)

Lemma Unit__pow__ok (u : Unit.t) (n : Z) :
  Unit.offset u = 0 -> Unit.factor u <> 0 \/ (0 <= n)%Z ->
  Unit__pow__ u n =
    Returns (Unit.Unit (Unit.label u +:+ "^" +:+ str_int n)
               (comprehension (fun b => Unit.bases u b * Qc_of_Z n))
               (Q2Qc (Qpower (Unit.factor u) n)) 0).
Proof.
  intros Ho Hf. unfold Unit__pow__.
  rewrite bool_decide_eq_true_2 by done. by rewrite power_ok.
Qed.

Lemma pow_ok (u : Unit.t) (n : Z) :
  Unit.offset u = 0 -> Unit.factor u <> 0 \/ (0 <= n)%Z ->
  exists r,
    pow u n = Returns r /\
    (forall d, Unit.bases r d = Unit.bases u d * Qc_of_Z n) /\
    Unit.factor r = Q2Qc (Qpower (Unit.factor u) n) /\
    Unit.offset r = 0.
Proof.
  intros Ho Hf. destruct u as [l d f o|b].
  - eexists. split; [by apply Unit__pow__ok|].
    split; [|done]. intros x. by rewrite bases_Unit.
  - eexists. split; [by apply Unit__pow__ok|].
    split; [|done]. intros x. rewrite bases_Unit. unfold SIBase_unit.
    by rewrite bases_Unit.
Qed.



(** X10.  For a unit without offset, [u ** 1] is equal to [u] and [u ** 0]
    is equal to [Unit()]. *)
Theorem X10_power_one_and_zero (u : Unit.t) :
  Unit.offset u = 0 ->
  exists r1 r0,
    pow u 1 = Returns r1 /\ Unit.eq r1 u = true /\
    pow u 0 = Returns r0 /\ Unit.eq r0 Unit.Unit0 = true.
Proof.
  intros Ho.
  destruct (pow_ok u 1 Ho) as (r1 & Hr1 & Hb1 & Hf1 & Ho1); [right; lia|].
  destruct (pow_ok u 0 Ho) as (r0 & Hr0 & Hb0 & Hf0 & Ho0); [right; lia|].
  exists r1, r0. split; [done|]. split; [|split; [done|]].
  - apply Unit_eq_true. rewrite Hf1, Ho1, Qcpow_1. split; [done|]. split; [done|].
    intros d. rewrite Hb1, Z2Qc_inj_1. ring.
  - apply Unit_eq_true. rewrite Hf0, Ho0. split; [done|]. split; [done|].
    intros d. rewrite Hb0, Z2Qc_inj_0. cbn. rewrite lookup_empty. cbn. ring.
Qed.

Lemma X10_witness_power_one_and_zero :
  exists r1 r0,
    pow double_metre 1 = Returns r1 /\ Unit.eq r1 double_metre = true /\
    pow double_metre 0 = Returns r0 /\ Unit.eq r0 Unit.Unit0 = true.
Proof. apply (X10_power_one_and_zero double_metre); reflexivity. Defined.









(** ** Conversions *)







(** ** Quantities *)

(** X18.  When [a], [b] and [c] have equal units without offset and with an
    exponent other than 0, [a + b] is returned, but its unit is the product
    of the units, so [(a + b) + c] and [(a + b) - c] fail on the assertion
    of different units. *)
Theorem X18_a_sum_cannot_be_added_again (a b c : UnitVal.t) (d : SIBase) :
  Unit.eq (UnitVal.unit a) (UnitVal.unit b) = true ->
  Unit.eq (UnitVal.unit a) (UnitVal.unit c) = true ->
  Unit.offset (UnitVal.unit a) = 0 ->
  Unit.bases (UnitVal.unit a) d <> 0 ->
  exists s,
    UnitVal.__add__ a b = Ok s /\
    UnitVal.__add__ s c = Raise (AssertionError Cannot_add_different) /\
    UnitVal.__sub__ s c = Raise (AssertionError Cannot_subtract_different).
Proof.
  intros Hab Hac Ho Hd. eexists.
  split; [by rewrite add_unfold, Unit_mul_ok|].
  assert (Hne : Unit.eq
    (Unit.Unit (Unit.label (UnitVal.unit a) +:+ middot +:+ Unit.label (UnitVal.unit b))
       (comprehension (fun d => Unit.bases (UnitVal.unit a) d + Unit.bases (UnitVal.unit b) d))
       (Unit.factor (UnitVal.unit a) * Unit.factor (UnitVal.unit b)) 0)
    (UnitVal.unit c) = false).
  { apply not_true_iff_false. rewrite Unit_eq_true. intros (_ & _ & Hb).
    specialize (Hb d). rewrite bases_Unit in Hb.
    apply Unit_eq_true in Hab as (_ & _ & Hab). apply Unit_eq_true in Hac as (_ & _ & Hac).
    rewrite <- Hab, <- Hac in Hb. by apply Qc_double_neq in Hb. }
  unfold UnitVal.__add__, UnitVal.__sub__.
  cbn [UnitVal.__init__ mbind result_bind mret result_ret UnitVal.unit].
  by rewrite Hne.
Qed.

Lemma X18_witness_a_sum_cannot_be_added_again :
  exists s,
    UnitVal.__add__ (UnitVal.UnitVal 2 unit_py.m) (UnitVal.UnitVal 1 unit_py.m) = Ok s /\
    UnitVal.__add__ s (UnitVal.UnitVal 1 unit_py.m)
      = Raise (AssertionError Cannot_add_different) /\
    UnitVal.__sub__ s (UnitVal.UnitVal 1 unit_py.m)
      = Raise (AssertionError Cannot_subtract_different).
Proof.
  apply (X18_a_sum_cannot_be_added_again (UnitVal.UnitVal 2 unit_py.m)
           (UnitVal.UnitVal 1 unit_py.m) (UnitVal.UnitVal 1 unit_py.m) METER);
    [vm_compute; reflexivity|vm_compute; reflexivity|reflexivity|qc_neq].
Defined.

(** X19.  The quotient of two quantities with equal exponents (the dividend's
    unit without offset, the divisor's value other than 0) casts to the plain
    number [a.val / b.val]; the factors of the two units play no part. *)
Theorem X19_ratio_of_like_quantities_casts (a b : UnitVal.t) :
  (forall d, Unit.bases (UnitVal.unit a) d = Unit.bases (UnitVal.unit b) d) ->
  Unit.offset (UnitVal.unit a) = 0 ->
  UnitVal.val b <> 0 ->
  exists r,
    UnitVal.__truediv__ a (inl b) = Ok r /\
    UnitVal.__float__ r = Ok (UnitVal.val a / UnitVal.val b).
Proof.
  intros Hb Ho Hv. unfold UnitVal.__truediv__. cbn [UnitVal.operand].
  rewrite truediv_ok, Unit_truediv_ok by done. eexists. split; [reflexivity|].
  unfold UnitVal.__float__. rewrite assert_true; [done|].
  apply unitless_true. intros d. cbn [UnitVal.__init__ UnitVal.unit].
  rewrite bases_Unit, Hb. ring.
Qed.

Lemma X19_witness_ratio_of_like_quantities_casts :
  exists r,
    UnitVal.__truediv__ (UnitVal.UnitVal (Qc_of_Z 100) unit_py.m)
                        (inl (UnitVal.UnitVal (Qc_of_Z 10) double_metre)) = Ok r /\
    UnitVal.__float__ r = Ok (Qc_of_Z 100 / Qc_of_Z 10).
Proof.
  apply (X19_ratio_of_like_quantities_casts (UnitVal.UnitVal (Qc_of_Z 100) unit_py.m)
           (UnitVal.UnitVal (Qc_of_Z 10) double_metre));
    [intros d; destruct d; qc_eq|reflexivity|qc_neq].
Defined.

(** X20.  Whenever the cast to an integer returns [z], the cast to a plain
    number returns the same [z]. *)
Theorem X20_int_agrees_with_float (q : UnitVal.t) (z : Z) :
  UnitVal.__int__ q = Ok z -> UnitVal.__float__ q = Ok (Qc_of_Z z).
Proof.
  unfold UnitVal.__int__, UnitVal.__float__.
  destruct (UnitVal.unitless q); [|discriminate]. cbn [assert mbind result_bind].
  destruct (decide (Qc_of_Z (int (UnitVal.val q)) = UnitVal.val q)) as [H|H].
  - rewrite bool_decide_eq_true_2 by done. intros [= <-]. by rewrite H.
  - by rewrite bool_decide_eq_false_2.
Qed.

Lemma X20_witness_int_agrees_with_float :
  UnitVal.__float__ (UnitVal.UnitVal (Qc_of_Z 10) Unit.Unit0) = Ok (Qc_of_Z 10).
Proof.
  apply (X20_int_agrees_with_float (UnitVal.UnitVal (Qc_of_Z 10) Unit.Unit0) 10).
  vm_compute. reflexivity.
Defined.



(** X22.  [Unit.toUnit] returns a unit exactly when the factor is 1 and the
    offset 0; the unit returned is equal to the original and carries the new
    label; otherwise the assertion fails. *)
Theorem X22_unit_relabelled (u : Unit.t) (label : string) :
  ((exists r, Unit.toUnit u label = Ok r) <-> Unit.factor u = 1 /\ Unit.offset u = 0) /\
  (forall r, Unit.toUnit u label = Ok r -> Unit.eq r u = true /\ Unit.label r = label) /\
  (Unit.factor u <> 1 \/ Unit.offset u <> 0 ->
   Unit.toUnit u label = Raise (AssertionError Unit_toUnit_scaled)).
Proof.
  unfold Unit.toUnit.
  destruct (decide (Unit.factor u = 1)) as [Hf|Hf];
    [destruct (decide (Unit.offset u = 0)) as [Ho|Ho]|].
  - rewrite !bool_decide_eq_true_2 by done. cbn [andb assert mbind result_bind].
    split; [|split].
    + split; [done|]. intros _. by eexists.
    + intros r [= <-]. split; [|done]. apply Unit_eq_true.
      cbn [Unit.factor Unit.offset]. repeat split; [done..|].
      intros d. by rewrite bases_Unit.
    + intros [H|H]; by destruct H.
  - rewrite (bool_decide_eq_false_2 (Unit.offset u = 0)) by done.
    rewrite andb_false_r. cbn [assert mbind result_bind].
    split; [|split]; [|done..].
    split; [by intros [r Hr]|]. by intros [_ H].
  - rewrite (bool_decide_eq_false_2 (Unit.factor u = 1)) by done.
    cbn [andb assert mbind result_bind].
    split; [|split]; [|done..].
    split; [by intros [r Hr]|]. by intros [H _].
Qed.

Lemma X22_witness_unit_relabelled :
  (exists r, Unit.toUnit joule "J" = Ok r) /\
  Unit.toUnit unit_py.F "F" = Raise (AssertionError Unit_toUnit_scaled).
Proof.
  split.
  - apply (X22_unit_relabelled joule "J"). split; reflexivity.
  - apply (X22_unit_relabelled unit_py.F "F"). left. qc_neq.
Defined.

Lemma comprehension_ext (f g : SIBase -> Qc) :
  (forall b, f b = g b) -> comprehension f = comprehension g.
Proof. intros H. unfold comprehension, members. cbn [foldl]. by rewrite !H. Qed.




(** X24.  [v / u] for a number [v] and any unit [u], with or without offset,
    returns the quantity of value [v] whose unit has the exponents of [u]
    negated, offset 0 and the factor of [u] itself (not its inverse). *)
Theorem X24_number_over_unit (u : Unit.t) (v : Qc) :
  exists r,
    Unit__rtruediv__ u v = Ok r /\
    UnitVal.val r = v /\
    (forall d, Unit.bases (UnitVal.unit r) d = - Unit.bases u d) /\
    Unit.factor (UnitVal.unit r) = Unit.factor u /\
    Unit.offset (UnitVal.unit r) = 0.
Proof.
  unfold Unit__rtruediv__, UnitVal.__truediv__. cbn [UnitVal.operand].
  cbn [UnitVal.__init__ UnitVal.val UnitVal.unit].
  rewrite truediv_ok by qc_neq. rewrite Unit_truediv_ok by done.
  eexists. split; [reflexivity|]. cbn [UnitVal.__init__ UnitVal.val UnitVal.unit].
  split; [by field|]. split; [|split; [cbn; ring|done]].
  intros d. rewrite bases_Unit. cbn. rewrite lookup_empty. cbn. ring.
Qed.

(** ** Safe constructors and their callers *)

Lemma Safe_ok (D : Unit.t) (q : UnitVal.t) :
  (forall d, Unit.bases (UnitVal.unit q) d = Unit.bases D d) ->
  SafeConstructor.__init__ D q = Ok q.
Proof.
  intros H. unfold SafeConstructor.__init__.
  rewrite assert_true by (by apply bases_eq_true). by destruct q.
Qed.

Lemma Safe_inv (D : Unit.t) (q r : UnitVal.t) :
  SafeConstructor.__init__ D q = Ok r ->
  forall d, Unit.bases (UnitVal.unit q) d = Unit.bases D d.
Proof.
  unfold SafeConstructor.__init__.
  destruct (Unit.bases_eq _ _) eqn:H; [|discriminate]. intros _.
  by apply bases_eq_true.
Qed.

(** X25.  A quantity accepted by a safe constructor is still accepted by it
    after any conversion that returns. *)
Theorem X25_safe_constructor_survives_conversion (D t : Unit.t) (q q' r : UnitVal.t) :
  SafeConstructor.__init__ D q = Ok q' ->
  UnitVal.to q (Some t) = Ok r ->
  SafeConstructor.__init__ D r = Ok r.
Proof.
  intros HD Hr. pose proof (Safe_inv _ _ _ HD) as Hb.
  unfold UnitVal.to in Hr.
  destruct (Unit.bases_eq (Unit.bases t) (Unit.bases (UnitVal.unit q))) eqn:Ht;
    [|discriminate Hr].
  cbn [assert mbind result_bind] in Hr.
  destruct (truediv _ _); [|discriminate Hr].
  injection Hr as <-. apply Safe_ok. intros d. cbn [UnitVal.__init__ UnitVal.unit].
  rewrite <- Hb. revert d. by apply bases_eq_true.
Qed.

Lemma X25_witness_safe_constructor_survives_conversion :
  exists r,
    UnitVal.to (UnitVal.UnitVal (Qc_of_Z 212) unit_py.F) (Some unit_py.C) = Ok r /\
    SafeConstructor.__init__ unit_py.K r = Ok r.
Proof.
  destruct (to_Some_ok (UnitVal.UnitVal (Qc_of_Z 212) unit_py.F) unit_py.C)
    as (r & Hr & _); [intros d; destruct d; qc_eq|qc_neq|].
  exists r. split; [exact Hr|].
  apply (X25_safe_constructor_survives_conversion unit_py.K unit_py.C
           (UnitVal.UnitVal (Qc_of_Z 212) unit_py.F)
           (UnitVal.UnitVal (Qc_of_Z 212) unit_py.F) r); [|exact Hr].
  apply Safe_ok. intros d. destruct d; qc_eq.
Defined.

(** X26.  When [a] is accepted for dimension [D1] and [b] for [D2], and the
    exponents of [D] are the sums of theirs, the product [a * b] is accepted
    for [D] with value [a.val * b.val], provided the unit of [a] has no
    offset; with an offset the product fails on the assertion of
    [Unit.__mul__]. *)
Theorem X26_safe_constructor_of_a_product (D1 D2 D : Unit.t) (a b a' b' : UnitVal.t) :
  SafeConstructor.__init__ D1 a = Ok a' ->
  SafeConstructor.__init__ D2 b = Ok b' ->
  (forall d, Unit.bases D d = Unit.bases D1 d + Unit.bases D2 d) ->
  (Unit.offset (UnitVal.unit a) = 0 ->
   exists r,
     UnitVal.__mul__ a (inl b) = Ok r /\
     UnitVal.val r = UnitVal.val a * UnitVal.val b /\
     SafeConstructor.__init__ D r = Ok r) /\
  (Unit.offset (UnitVal.unit a) <> 0 ->
   UnitVal.__mul__ a (inl b) = Raise (AssertionError Cannot_multiply_offset)).
Proof.
  intros H1 H2 HD.
  pose proof (Safe_inv _ _ _ H1) as Hb1. pose proof (Safe_inv _ _ _ H2) as Hb2.
  unfold UnitVal.__mul__. cbn [UnitVal.operand]. split.
  - intros Ho. rewrite Unit_mul_ok by done. eexists. split; [reflexivity|].
    split; [reflexivity|]. apply Safe_ok. intros d.
    cbn [UnitVal.__init__ UnitVal.unit]. by rewrite bases_Unit, HD, Hb1, Hb2.
  - intros Ho. by rewrite Unit_mul_affine.
Qed.

Lemma X26_witness_safe_constructor_of_a_product :
  (exists r,
     UnitVal.__mul__ (UnitVal.UnitVal 2 unit_py.K) (inl (UnitVal.UnitVal 1 unit_py.m)) = Ok r /\
     UnitVal.val r = 2 * 1 /\
     SafeConstructor.__init__ (Unit.Unit "K.m" {[ KELVIN := 1; METER := 1 ]} 1 0) r = Ok r) /\
  UnitVal.__mul__ (UnitVal.UnitVal 2 unit_py.C) (inl (UnitVal.UnitVal 1 unit_py.m))
    = Raise (AssertionError Cannot_multiply_offset).
Proof.
  split.
  - apply (X26_safe_constructor_of_a_product unit_py.K unit_py.m
             (Unit.Unit "K.m" {[ KELVIN := 1; METER := 1 ]} 1 0)
             (UnitVal.UnitVal 2 unit_py.K) (UnitVal.UnitVal 1 unit_py.m)
             (UnitVal.UnitVal 2 unit_py.K) (UnitVal.UnitVal 1 unit_py.m));
      [by apply Safe_ok|by apply Safe_ok|intros d; destruct d; qc_eq|reflexivity].
  - apply (X26_safe_constructor_of_a_product unit_py.K unit_py.m
             (Unit.Unit "K.m" {[ KELVIN := 1; METER := 1 ]} 1 0)
             (UnitVal.UnitVal 2 unit_py.C) (UnitVal.UnitVal 1 unit_py.m)
             (UnitVal.UnitVal 2 unit_py.C) (UnitVal.UnitVal 1 unit_py.m));
      [apply Safe_ok; intros d; destruct d; qc_eq|by apply Safe_ok
      |intros d; destruct d; qc_eq|qc_neq].
Defined.

Lemma J_returns :
  exists j,
    unit_py_derived.J = Returns j /\
    (forall d, Unit.bases j d = Unit.bases joule d) /\
    Unit.factor j = 1 /\ Unit.offset j = 0.
Proof.
  eexists. split; [vm_compute; reflexivity|].
  split; [intros d; destruct d; qc_eq|]. split; qc_eq.
Qed.

Lemma boltzmann_returns :
  exists j k,
    unit_py_derived.J = Returns j /\
    example_py.boltzmann = Returns k /\
    UnitVal.val k = Q2Qc (138 # 10 ^ 25) /\
    (forall d, Unit.bases (UnitVal.unit k) d = Unit.bases j d - Unit.bases unit_py.K d) /\
    Unit.offset (UnitVal.unit k) = 0.
Proof.
  do 2 eexists. split; [vm_compute; reflexivity|].
  split; [vm_compute; reflexivity|].
  split; [qc_eq|]. split; [intros d; destruct d; qc_eq|qc_eq].
Qed.

(** X27.  For a quantity [t] accepted by [Temp]: when its unit has no offset,
    [doThermo3] returns the energy [t * boltzmann], the same quantity as
    [doThermo1], with the exponents of the joule; when its unit has an offset
    (Celsius), [doThermo3] fails on the assertion of [Unit.__mul__], although
    [Temp] accepted it. *)
Theorem X27_doThermo3_needs_an_offset_free_temperature (t0 t : UnitVal.t) :
  Temp t0 = Ok t ->
  (Unit.offset (UnitVal.unit t) = 0 ->
   exists k e,
     example_py.boltzmann = Returns k /\
     example_py.doThermo3 t = Returns e /\
     example_py.doThermo1 t = Returns e /\
     UnitVal.val e = UnitVal.val t * UnitVal.val k /\
     (forall d, Unit.bases (UnitVal.unit e) d = Unit.bases joule d)) /\
  (Unit.offset (UnitVal.unit t) <> 0 ->
   example_py.doThermo3 t = Raises (Earlier (AssertionError Cannot_multiply_offset))).
Proof.
  intros HT.
  assert (Hq : t = t0).
  { unfold Temp, SafeConstructor.__init__ in HT.
    destruct (Unit.bases_eq _ _); [|discriminate HT].
    injection HT as <-. by destruct t0. }
  subst t0. pose proof (Safe_inv _ _ _ HT) as Hb.
  destruct boltzmann_returns as (j & k & HJ & Hk & Hkv & Hkb & Hko).
  destruct J_returns as (j' & HJ' & Hjb & Hjf & Hjo).
  rewrite HJ in HJ'. injection HJ' as <-.
  unfold example_py.doThermo3, example_py.doThermo1, Energy. rewrite Hk, HJ.
  cbn [mbind outcome_bind]. unfold UnitVal.__mul__. cbn [UnitVal.operand]. split.
  - intros Ho. rewrite Unit_mul_ok by done. cbn [lift mbind outcome_bind result_bind].
    assert (Hbe : forall d,
      Unit.bases (Unit.Unit (Unit.label (UnitVal.unit t) +:+ middot +:+ Unit.label (UnitVal.unit k))
        (comprehension (fun d => Unit.bases (UnitVal.unit t) d + Unit.bases (UnitVal.unit k) d))
        (Unit.factor (UnitVal.unit t) * Unit.factor (UnitVal.unit k)) 0) d = Unit.bases j d).
    { intros d. rewrite bases_Unit, Hb, Hkb. ring. }
    rewrite Safe_ok by exact Hbe. cbn [lift].
    exists k. eexists. split; [reflexivity|]. split; [reflexivity|]. split; [reflexivity|].
    split; [reflexivity|]. intros d. cbn [UnitVal.__init__ UnitVal.unit].
    by rewrite Hbe, Hjb.
  - intros Ho. by rewrite Unit_mul_affine.
Qed.

Lemma X27_witness_doThermo3_needs_an_offset_free_temperature :
  (exists k e,
     example_py.boltzmann = Returns k /\
     example_py.doThermo3 (UnitVal.UnitVal 2 unit_py.K) = Returns e /\
     example_py.doThermo1 (UnitVal.UnitVal 2 unit_py.K) = Returns e /\
     UnitVal.val e = 2 * UnitVal.val k /\
     (forall d, Unit.bases (UnitVal.unit e) d = Unit.bases joule d)) /\
  example_py.doThermo3 (UnitVal.UnitVal 2 unit_py.C)
    = Raises (Earlier (AssertionError Cannot_multiply_offset)).
Proof.
  split.
  - apply (X27_doThermo3_needs_an_offset_free_temperature (UnitVal.UnitVal 2 unit_py.K) (UnitVal.UnitVal 2 unit_py.K));
      [by apply Safe_ok|reflexivity].
  - apply (X27_doThermo3_needs_an_offset_free_temperature (UnitVal.UnitVal 2 unit_py.C) (UnitVal.UnitVal 2 unit_py.C));
      [apply Safe_ok; intros d; destruct d; qc_eq|qc_neq].
Defined.


